(** * The chat turn of the AI Web Assistant (main.py), embedded in Rocq

    The Streamlit script keeps the conversation in
    [st.session_state.messages], a list of dicts.  One turn appends the
    user's message, calls the Ollama client, runs the tool calls the
    model asked for, merges their output into the reply and appends the
    reply.  The embedding threads that list, together with a trace of
    the calls made to the client and of what is written to the page,
    through a small state-and-exception monad. *)

From Stdlib Require Import NArith Ascii String.
From stdpp Require Import gmap strings list.

Local Open Scope string_scope.
Local Open Scope list_scope.

(** ** Python values *)

(** A Python [str] is a sequence of Unicode code points: [len] counts
    code points and a slice cuts between them. *)
Abbreviation pystr := (list N).

(** An ASCII literal of the source. *)
Definition py (s : string) : pystr :=
  (fun a => N_of_ascii a) <$> list_ascii_of_string s.

(** ["\n"] *)
Definition nl : pystr := [10%N].

(** The character U+1F50D (left-pointing magnifying glass). *)
Definition magnifier : pystr := [128269%N].

(** [sep.join(parts)] *)
Fixpoint join (sep : pystr) (parts : list pystr) : pystr :=
  match parts with
  | [] => []
  | [p] => p
  | p :: rest => p ++ sep ++ join sep rest
  end.

(** Truth value of a [str] and of a list: empty is false. *)
Definition truthy {A} (l : list A) : bool :=
  match l with [] => false | _ :: _ => true end.

(** Truth value of an optional attribute: [None] is false. *)
Definition truthy_opt {A} (o : option (list A)) : bool :=
  match o with None => false | Some l => truthy l end.

(** [value or <empty string>] *)
Definition or_empty (o : option pystr) : pystr :=
  match o with
  | Some s => if truthy s then s else []
  | None => []
  end.

(** A message is a dict with string keys: ["role"], ["content"] and,
    on some assistant messages, ["thinking"]. *)
Abbreviation Message := (gmap string pystr).

(** Keyword arguments of a tool call, as the model produced them. *)
Abbreviation kwargs := (gmap pystr pystr).

(** What a call comes back with: a value, or an [Exception] of which
    the script only ever uses [str(e)]. *)
Inductive Outcome (A : Type) : Type :=
| Returned (a : A)
| Raised (e : pystr).
Arguments Returned {A} a.
Arguments Raised {A} e.

Definition obind {A B} (m : Outcome A) (k : A -> Outcome B) : Outcome B :=
  match m with
  | Returned a => k a
  | Raised e => Raised e
  end.

(** [d[k]]: a missing key raises [KeyError(k)], whose [str] is the
    quoted key. *)
Definition getitem (d : Message) (k : string) : Outcome pystr :=
  match d !! k with
  | Some v => Returned v
  | None => Raised (py "'" ++ py k ++ py "'")
  end.

(** ** The Ollama client, as the script uses it *)

(** An attribute found on the client by name: its truth value, and what
    calling it with keyword arguments does.  For a call that returns,
    the outcome carries [str(result)], the only use the script makes of
    the result. *)
Record PyObject := {
  py_bool : bool;
  py_call : kwargs -> Outcome pystr
}.

(** A bound method is a true object. *)
Definition bound_method (f : kwargs -> Outcome pystr) : PyObject :=
  {| py_bool := true; py_call := f |}.

Record ToolFunction := {
  name : pystr;
  arguments : kwargs
}.

Record ToolCall := {
  function : ToolFunction
}.

Record ResponseMessage := {
  content : option pystr;
  thinking : option pystr;
  tool_calls : option (list ToolCall)
}.

Record ChatResponse := {
  message : ResponseMessage
}.

Record ChatRequest := {
  req_model : pystr;
  req_messages : list Message;
  req_tools : list PyObject;
  req_think : bool
}.

(** The client object.  [chat], [web_search] and [web_fetch] are the
    attributes the script names; [other_attrs] stands for whatever else
    [getattr] can find on the object.  The script calls [chat] with the
    request it has built; the tool loop can reach the same method by
    name and then calls it with the keyword arguments the model chose,
    which is what [chat_with] stands for (the outcome carries [str] of
    the response). *)
Record Client := {
  chat : ChatRequest -> Outcome ChatResponse;
  chat_with : kwargs -> Outcome pystr;
  web_search : kwargs -> Outcome pystr;
  web_fetch : kwargs -> Outcome pystr;
  other_attrs : pystr -> option PyObject
}.

(** [getattr(client, function_name, None)] *)
Definition getattr (client : Client) (function_name : pystr) : option PyObject :=
  if decide (function_name = py "web_search") then
    Some (bound_method (web_search client))
  else if decide (function_name = py "web_fetch") then
    Some (bound_method (web_fetch client))
  else if decide (function_name = py "chat") then
    Some (bound_method (chat_with client))
  else other_attrs client function_name.

(** Truth value of what [getattr] gave back. *)
Definition object_truthy (o : option PyObject) : bool :=
  match o with
  | Some f => py_bool f
  | None => false
  end.

(** ** The script's state and effects *)

(** What the script does to the outside, in order.  [ClientChat] is
    the chat call the script makes with the request it built;
    [ToolInvoked] is a call the tool loop makes of the attribute of that
    name, which for the name [chat] is a further call of the chat
    method. *)
Inductive Event :=
| ClientChat (req : ChatRequest)
| ToolInvoked (function_name : pystr) (args : kwargs)
| StWrite (text : pystr)
| StThinking (text : pystr)
| StError (text : pystr)
| StRerun.

Record World := {
  messages : list Message;
  trace : list Event
}.

Definition Py (A : Type) : Type := World -> Outcome A * World.

Definition ret {A} (a : A) : Py A := fun w => (Returned a, w).

Definition raise {A} (e : pystr) : Py A := fun w => (Raised e, w).

Definition bind {A B} (m : Py A) (k : A -> Py B) : Py B :=
  fun w =>
    match m w with
    | (Returned a, w') => k a w'
    | (Raised e, w') => (Raised e, w')
    end.

(** [try: body except Exception as e: handler(str(e))]; what the body
    did before it raised stays done. *)
Definition try_except {A} (body : Py A) (handler : pystr -> Py A) : Py A :=
  fun w =>
    match body w with
    | (Returned a, w') => (Returned a, w')
    | (Raised e, w') => handler e w'
    end.

Definition lift {A} (o : Outcome A) : Py A := fun w => (o, w).

Declare Scope py_scope.
Delimit Scope py_scope with py.
Notation "x <- m ;; k" := (bind m (fun x => k))
  (at level 100, m at next level, right associativity) : py_scope.
Notation "m ;; k" := (bind m (fun _ => k))
  (at level 100, right associativity) : py_scope.

Definition emit (ev : Event) : Py unit :=
  fun w => (Returned tt, {| messages := messages w; trace := trace w ++ [ev] |}).

(** [st.session_state.messages] *)
Definition session_messages : Py (list Message) :=
  fun w => (Returned (messages w), w).

(** [st.session_state.messages.append(m)] *)
Definition session_append (m : Message) : Py unit :=
  fun w => (Returned tt, {| messages := messages w ++ [m]; trace := trace w |}).

(** [st.session_state.messages = []] *)
Definition session_clear : Py unit :=
  fun w => (Returned tt, {| messages := []; trace := trace w |}).

(** A [for] loop that carries a local variable through its body. *)
Fixpoint for_each {A S} (xs : list A) (body : A -> S -> Py S) (s : S) : Py S :=
  match xs with
  | [] => ret s
  | x :: rest => bind (body x s) (for_each rest body)
  end.

Local Open Scope py_scope.

(** ** The script *)

(** The system message of a turn; [current_time] is what
    [datetime.now().strftime("%A, %B %d, %Y at %I:%M %p")] returned. *)
Definition system_message (current_time : pystr) : Message :=
  {[ "role" := py "system";
     "content" := py "Current date and time: " ++ current_time
       ++ py ". When users ask for 'latest', 'recent', 'today', or 'current' information, use web search with appropriate date context." ]}.

(** [{"role": msg["role"], "content": msg["content"]}] *)
Definition project (msg : Message) : Outcome Message :=
  obind (getitem msg "role") (fun r =>
  obind (getitem msg "content") (fun c =>
  Returned {[ "role" := r; "content" := c ]})).

(** The list comprehension over the stored messages. *)
Fixpoint project_all (history : list Message) : Outcome (list Message) :=
  match history with
  | [] => Returned []
  | msg :: rest =>
      obind (project msg) (fun m =>
      obind (project_all rest) (fun ms =>
      Returned (m :: ms)))
  end.

(** [api_messages = [system_message] + [... for msg in messages]] *)
Definition api_messages (current_time : pystr) (history : list Message)
  : Outcome (list Message) :=
  obind (project_all history) (fun ms =>
  Returned ([system_message current_time] ++ ms)).

Definition get_available_tools (client : Client) (enable_web_search : bool)
  : list PyObject :=
  if enable_web_search then
    [bound_method (web_search client); bound_method (web_fetch client)]
  else
    [].

(** The request of [client.chat(model='qwen3:4b', messages=api_messages,
    tools=tools, think=show_thinking)]. *)
Definition chat_request (api : list Message) (tools : list PyObject)
    (show_thinking : bool) : ChatRequest :=
  {| req_model := py "qwen3:4b";
     req_messages := api;
     req_tools := tools;
     req_think := show_thinking |}.

Definition client_chat (client : Client) (req : ChatRequest) : Py ChatResponse :=
  emit (ClientChat req) ;; lift (chat client req).

(** [function_to_call] applied to the keyword arguments, then [str]
    of the result. *)
Definition call_tool (function_name : pystr) (f : PyObject) (args : kwargs)
  : Py pystr :=
  emit (ToolInvoked function_name args) ;; lift (py_call f args).

(** The block of a tool result, cut after 2000 characters. *)
Definition format_result (function_name result_str : pystr) : pystr :=
  if (2000 <? length result_str)%nat then
    py "**" ++ function_name ++ py "**:" ++ nl ++ take 2000 result_str
      ++ py "..." ++ nl ++ nl
      ++ py "*[Result truncated - showing first 2000 characters]*"
  else
    py "**" ++ function_name ++ py "**:" ++ nl ++ result_str.

(** The block of a tool call that raised. *)
Definition format_error (function_name e : pystr) : pystr :=
  py "**" ++ function_name ++ py " Error**: " ++ e.

(** The body of the loop over [response.message.tool_calls];
    [tool_results] is the list the loop appends to. *)
Definition handle_tool_call (client : Client) (tool_call : ToolCall)
    (tool_results : list pystr) : Py (list pystr) :=
  let function_name := name (function tool_call) in
  let function_to_call := getattr client function_name in
  match function_to_call with
  | Some f =>
      if py_bool f then
        try_except
          (result_str <- call_tool function_name f (arguments (function tool_call)) ;;
           ret (tool_results ++ [format_result function_name result_str]))
          (fun e => ret (tool_results ++ [format_error function_name e]))
      else ret tool_results
  | None => ret tool_results
  end.

(** ["\n\n---\n\n**<magnifier> Tool Results:**\n\n"] *)
Definition results_heading : pystr :=
  nl ++ nl ++ py "---" ++ nl ++ nl ++ py "**" ++ magnifier
    ++ py " Tool Results:**" ++ nl ++ nl.

(** ["\n\n---\n\n"] *)
Definition results_separator : pystr :=
  nl ++ nl ++ py "---" ++ nl ++ nl.

(** [if response.message.tool_calls: ...], on the message under
    construction. *)
Definition handle_tool_calls (client : Client) (response : ChatResponse)
    (assistant_message : Message) : Py Message :=
  if truthy_opt (tool_calls (message response)) then
    tool_results <- for_each (default [] (tool_calls (message response)))
                      (handle_tool_call client) [] ;;
    if truthy tool_results then
      old <- lift (getitem assistant_message "content") ;;
      ret (<["content" := old ++ results_heading
                            ++ join results_separator tool_results]>
             assistant_message)
    else ret assistant_message
  else ret assistant_message.

(** The thinking expander, shown above a reply. *)
Definition show_thinking_of (msg : Message) (show_thinking : bool) : Py unit :=
  match msg !! "thinking" with
  | Some t => if truthy t && show_thinking then emit (StThinking t) else ret tt
  | None => ret tt
  end.

(** The reply as first built: role, content, and the thinking when it
    was asked for and came back. *)
Definition new_assistant_message (response : ChatResponse)
    (show_thinking : bool) : Message :=
  let assistant_message : Message :=
    {[ "role" := py "assistant";
       "content" := or_empty (content (message response)) ]} in
  match thinking (message response) with
  | Some t =>
      if truthy t && show_thinking then <["thinking" := t]> assistant_message
      else assistant_message
  | None => assistant_message
  end.

Definition process_ai_response (client : Client) (current_time : pystr)
    (user_input : pystr) (enable_web_search show_thinking : bool) : Py unit :=
  history <- session_messages ;;
  api <- lift (api_messages current_time history) ;;
  let tools := get_available_tools client enable_web_search in
  try_except
    (response <- client_chat client (chat_request api tools show_thinking) ;;
     let assistant_message := new_assistant_message response show_thinking in
     assistant_message <- handle_tool_calls client response assistant_message ;;
     show_thinking_of assistant_message show_thinking ;;
     text <- lift (getitem assistant_message "content") ;;
     emit (StWrite text) ;;
     session_append assistant_message)
    (fun e => emit (StError (py "Error getting AI response: " ++ e))).

(** One message of [display_chat_history]. *)
Definition display_message (show_thinking : bool) (msg : Message) (_ : unit)
  : Py unit :=
  role <- lift (getitem msg "role") ;;
  if decide (role = py "user") then
    text <- lift (getitem msg "content") ;;
    emit (StWrite text)
  else if decide (role = py "assistant") then
    show_thinking_of msg show_thinking ;;
    text <- lift (getitem msg "content") ;;
    emit (StWrite text)
  else ret tt.

Definition display_chat_history (show_thinking : bool) : Py unit :=
  history <- session_messages ;;
  for_each history (display_message show_thinking) tt.

(** The chat input at the end of [main]: [chat_input] is what
    [st.chat_input] returned, [None] when nothing was submitted. *)
Definition chat_turn (client : Client) (current_time : pystr)
    (enable_web_search show_thinking : bool) (chat_input : option pystr)
  : Py unit :=
  match chat_input with
  | Some user_input =>
      if truthy user_input then
        session_append {[ "role" := py "user"; "content" := user_input ]} ;;
        emit (StWrite user_input) ;;
        process_ai_response client current_time user_input
          enable_web_search show_thinking ;;
        emit StRerun
      else ret tt
  | None => ret tt
  end.

(** What one run of the script is given: the client, the clock, the two
    toggles, whether the clear button was pressed and the chat input. *)
Record Run := {
  run_client : Client;
  run_time : pystr;
  run_web_search : bool;
  run_thinking : bool;
  run_clear : bool;
  run_input : option pystr
}.

(** One run of [main]; the sidebar's captions are not traced.
    [st.rerun()] ends the run. *)
Definition main (r : Run) : Py unit :=
  if run_clear r then
    session_clear ;; emit StRerun
  else
    display_chat_history (run_thinking r) ;;
    chat_turn (run_client r) (run_time r) (run_web_search r) (run_thinking r)
      (run_input r).

(** The session starts with [st.session_state.messages = []]. *)
Definition initial : World := {| messages := []; trace := [] |}.

(** The world after a sequence of runs; an exception ends a run and the
    next one starts from the state it left. *)
Fixpoint run_all (runs : list Run) (w : World) : World :=
  match runs with
  | [] => w
  | r :: rest => run_all rest (snd (main r w))
  end.

(** ** Reading the script's runs *)

Arguments py : simpl never.

(** What one pass of the loop body adds to [tool_results], and what it
    adds to the trace, read off a run of [handle_tool_call]. *)
Definition tool_block (client : Client) (tool_call : ToolCall) : list pystr :=
  match fst (handle_tool_call client tool_call [] initial) with
  | Returned rs => rs
  | Raised _ => []
  end.

Definition tool_events (client : Client) (tool_call : ToolCall) : list Event :=
  trace (snd (handle_tool_call client tool_call [] initial)).

(** A stored message that [project] and [display_message] can read. *)
Definition well_formed (m : Message) : Prop :=
  is_Some (m !! "role") /\ is_Some (m !! "content").

(** The world with [ms] appended to the messages and [evs] to the trace. *)
Definition extend (w : World) (ms : list Message) (evs : list Event) : World :=
  {| messages := messages w ++ ms; trace := trace w ++ evs |}.

(** The blocks of all the tool calls of a response, in their order. *)
Definition tool_blocks (client : Client) (response : ChatResponse) : list pystr :=
  flat_map (tool_block client) (default [] (tool_calls (message response))).

(** The content of the reply once the blocks are merged in. *)
Definition merged_content (base : pystr) (blocks : list pystr) : pystr :=
  if truthy blocks then
    base ++ results_heading ++ join results_separator blocks
  else base.

(** The message the turn stores for a response. *)
Definition reply (client : Client) (response : ChatResponse)
    (show_thinking : bool) : Message :=
  if truthy (tool_blocks client response) then
    <["content" := merged_content (or_empty (content (message response)))
                     (tool_blocks client response)]>
      (new_assistant_message response show_thinking)
  else new_assistant_message response show_thinking.

(** What the page shows for a message: the thinking, then the content. *)
Definition shown (msg : Message) (show_thinking : bool) : list Event :=
  match msg !! "thinking" with
  | Some t => if truthy t && show_thinking then [StThinking t] else []
  | None => []
  end ++ [StWrite (default [] (msg !! "content"))].

(** The user's message, as [main] stores it. *)
Definition user_message (user_input : pystr) : Message :=
  {[ "role" := py "user"; "content" := user_input ]}.

(** A stored message reduced to its role and content. *)
Definition projection (msg : Message) : Message :=
  {[ "role" := default [] (msg !! "role");
     "content" := default [] (msg !! "content") ]}.

(** What [display_chat_history] shows for one stored message. *)
Definition displayed (show_thinking : bool) (msg : Message) : list Event :=
  if decide (msg !! "role" = Some (py "user")) then
    [StWrite (default [] (msg !! "content"))]
  else if decide (msg !! "role" = Some (py "assistant")) then
    shown msg show_thinking
  else [].

(** The request a turn sends when the stored messages are [history]. *)
Definition turn_request (client : Client) (now : pystr)
    (enable show : bool) (history : list Message) : ChatRequest :=
  chat_request (system_message now :: (projection <$> history))
    (get_available_tools client enable) show.

(** A run is a turn that completes when the clear button is not
    pressed, a text is submitted and the client's chat call returns. *)
Definition completes (r : Run) (w : World) : Prop :=
  run_clear r = false /\
  exists user_input response,
    run_input r = Some user_input /\
    truthy user_input = true /\
    chat (run_client r)
      (turn_request (run_client r) (run_time r) (run_web_search r)
         (run_thinking r) (messages w ++ [user_message user_input]))
    = Returned response.

(** Every run of the sequence completes, each from the state the
    previous ones left. *)
Fixpoint all_complete (runs : list Run) (w : World) : Prop :=
  match runs with
  | [] => True
  | r :: rest => completes r w /\ all_complete rest (snd (main r w))
  end.

(** What the script stores: user and assistant messages, each with a
    content. *)
Definition stored (m : Message) : Prop :=
  (m !! "role" = Some (py "user") \/ m !! "role" = Some (py "assistant")) /\
  is_Some (m !! "content").

(** ** Clients and responses for the examples *)

(** A client whose model answers with [response] whatever it is asked,
    whose search finds sunny weather and whose fetch times out; it has
    no other attribute. *)
Definition scripted (response : ChatResponse) : Client :=
  {| chat := fun _ => Returned response;
     chat_with := fun _ => Raised (py "model is required");
     web_search := fun _ => Returned (py "Sunny, 25C");
     web_fetch := fun _ => Raised (py "timeout");
     other_attrs := fun _ => None |}.

(** A client whose chat call fails. *)
Definition offline : Client :=
  {| chat := fun _ => Raised (py "connection refused");
     chat_with := fun _ => Raised (py "connection refused");
     web_search := fun _ => Returned (py "Sunny, 25C");
     web_fetch := fun _ => Raised (py "timeout");
     other_attrs := fun _ => None |}.

Definition call (function_name : string) (key value : string) : ToolCall :=
  {| function := {| name := py function_name;
                    arguments := {[ py key := py value ]} |} |}.

(** An empty content and one call of [web_search]. *)
Definition weather_response : ChatResponse :=
  {| message := {| content := Some [];
                   thinking := None;
                   tool_calls := Some [call "web_search" "query" "weather today"] |} |}.

(** A content and one call of [web_fetch]. *)
Definition fetch_response : ChatResponse :=
  {| message := {| content := Some (py "Let me read that page.");
                   thinking := None;
                   tool_calls := Some [call "web_fetch" "url" "https://example.org"] |} |}.

(** A content and one call of a tool the client does not have. *)
Definition browse_response : ChatResponse :=
  {| message := {| content := Some (py "Looking.");
                   thinking := None;
                   tool_calls := Some [call "web_browse" "url" "https://example.org"] |} |}.

(** No content at all. *)
Definition silent_response : ChatResponse :=
  {| message := {| content := None; thinking := None; tool_calls := None |} |}.

Definition monday : pystr := py "Monday, January 06, 2025 at 09:30 AM".

(** The world once the user's text is stored, before the model is asked. *)
Definition asked (user_input : string) : World :=
  {| messages := [user_message (py user_input)]; trace := [] |}.

(** A world whose stored reply carries a thinking trace. *)
Definition remembered : World :=
  {| messages :=
       [user_message (py "hello");
        {[ "role" := py "assistant"; "content" := py "Hi there.";
           "thinking" := py "The user greets me." ]}];
     trace := [] |}.

(** Two turns in a row: the weather question, then a greeting that the
    model leaves unanswered. *)
Definition two_turns : list Run :=
  [ {| run_client := scripted weather_response; run_time := monday;
       run_web_search := true; run_thinking := false;
       run_clear := false;
       run_input := Some (py "What's the weather today?") |};
    {| run_client := scripted silent_response; run_time := monday;
       run_web_search := false; run_thinking := true;
       run_clear := false;
       run_input := Some (py "Thanks!") |} ].

(** ** Reading the trace *)

(** What ends up on the page: [st.write], the thinking expander and
    [st.error]. *)
Definition on_page (ev : Event) : bool :=
  match ev with
  | StWrite _ | StThinking _ | StError _ => true
  | _ => false
  end.

Definition is_invocation (ev : Event) : bool :=
  match ev with ToolInvoked _ _ => true | _ => false end.

(** The lookup of the loop body finds a true attribute for the call. *)
Definition resolves (client : Client) (tool_call : ToolCall) : bool :=
  object_truthy (getattr client (name (function tool_call))).

(** The invocation a tool call stands for. *)
Definition invocation (tool_call : ToolCall) : Event :=
  ToolInvoked (name (function tool_call)) (arguments (function tool_call)).

(** The key a stored message lacks, in the order [project] reads them. *)
Definition missing_key (m : Message) : option string :=
  match m !! "role" with
  | None => Some "role"
  | Some _ =>
      match m !! "content" with
      | None => Some "content"
      | Some _ => None
      end
  end.

(** A content and three calls: a search, a fetch and a second search. *)
Definition busy_response : ChatResponse :=
  {| message := {| content := Some (py "Let me check.");
                   thinking := None;
                   tool_calls :=
                     Some [call "web_search" "query" "weather today";
                           call "web_fetch" "url" "https://example.org";
                           call "web_search" "query" "weather tomorrow"] |} |}.

(** A content and a call of [chat] itself. *)
Definition reentrant_response : ChatResponse :=
  {| message := {| content := Some (py "Asking again.");
                   thinking := None;
                   tool_calls := Some [call "chat" "model" "qwen3:4b"] |} |}.

(** A plain answer. *)
Definition plain_response : ChatResponse :=
  {| message := {| content := Some (py "I can't check live weather.");
                   thinking := None; tool_calls := None |} |}.

(** A content, a thinking trace and no tool call. *)
Definition thinking_response : ChatResponse :=
  {| message := {| content := Some (py "It is 42.");
                   thinking := Some (py "Six times seven.");
                   tool_calls := None |} |}.

(** One call the client lacks between a search and a fetch. *)
Definition mixed_response : ChatResponse :=
  {| message := {| content := Some (py "Checking.");
                   thinking := None;
                   tool_calls :=
                     Some [call "web_search" "query" "weather today";
                           call "web_browse" "url" "https://example.org";
                           call "web_fetch" "url" "https://example.org"] |} |}.

(** A world whose second stored message has lost its content. *)
Definition damaged : World :=
  {| messages := [user_message (py "hello");
                  {[ "role" := py "assistant" ]};
                  user_message (py "anyone?")];
     trace := [] |}.

(** A run in which the clear button is pressed. *)
Definition clear_pressed : Run :=
  {| run_client := offline; run_time := monday;
     run_web_search := true; run_thinking := false;
     run_clear := true; run_input := None |}.

(** A run in which [text] is submitted to [client]. *)
Definition submit (client : Client) (show : bool) (text : string) : Run :=
  {| run_client := client; run_time := monday;
     run_web_search := true; run_thinking := show;
     run_clear := false; run_input := Some (py text) |}.

(** An exchange: a user message alone, or a user message and the
    assistant message that answers it. *)
Definition exchange (g : list Message) : Prop :=
  exists user_input,
    g = [user_message user_input] \/
    exists assistant_message,
      g = [user_message user_input; assistant_message] /\
      assistant_message !! "role" = Some (py "assistant").

(** ** Lemmas on the runs *)

Lemma extend_nil w : extend w [] [] = w.
Proof. destruct w; unfold extend; simpl. by rewrite !app_nil_r. Qed.

Lemma extend_extend w ms1 evs1 ms2 evs2 :
  extend (extend w ms1 evs1) ms2 evs2 = extend w (ms1 ++ ms2) (evs1 ++ evs2).
Proof. unfold extend; simpl. by rewrite !app_assoc. Qed.

Lemma handle_tool_call_run client tool_call acc w :
  handle_tool_call client tool_call acc w =
    (Returned (acc ++ tool_block client tool_call),
     extend w [] (tool_events client tool_call)).
Proof.
  unfold tool_block, tool_events, handle_tool_call.
  destruct (getattr client _) as [f|]; simpl.
  - destruct (py_bool f); simpl.
    + unfold try_except, bind, call_tool, bind, emit, lift, ret; simpl.
      destruct (py_call f _); simpl; unfold extend; simpl;
        by rewrite app_nil_r.
    + unfold ret. by rewrite extend_nil, app_nil_r.
  - unfold ret. by rewrite extend_nil, app_nil_r.
Qed.

Lemma for_each_tool_calls client calls acc w :
  for_each calls (handle_tool_call client) acc w =
    (Returned (acc ++ flat_map (tool_block client) calls),
     extend w [] (flat_map (tool_events client) calls)).
Proof.
  revert acc w. induction calls as [|tc calls IH]; intros acc w; simpl.
  - unfold ret. by rewrite extend_nil, app_nil_r.
  - unfold bind at 1. rewrite handle_tool_call_run, IH, extend_extend.
    by rewrite app_assoc.
Qed.

Lemma new_assistant_message_role response show :
  new_assistant_message response show !! "role" = Some (py "assistant").
Proof.
  unfold new_assistant_message.
  destruct (thinking _) as [t|]; [destruct (truthy t && show)|];
    by simplify_map_eq.
Qed.

Lemma new_assistant_message_content response show :
  new_assistant_message response show !! "content"
    = Some (or_empty (content (message response))).
Proof.
  unfold new_assistant_message.
  destruct (thinking _) as [t|]; [destruct (truthy t && show)|];
    by simplify_map_eq.
Qed.

Lemma reply_role client response show :
  reply client response show !! "role" = Some (py "assistant").
Proof.
  unfold reply. destruct (truthy _).
  - rewrite lookup_insert_ne by done. apply new_assistant_message_role.
  - apply new_assistant_message_role.
Qed.

Lemma reply_content client response show :
  reply client response show !! "content"
    = Some (merged_content (or_empty (content (message response)))
              (tool_blocks client response)).
Proof.
  unfold reply, merged_content. destruct (truthy _).
  - by rewrite lookup_insert_eq.
  - apply new_assistant_message_content.
Qed.

Lemma handle_tool_calls_run client response show w :
  handle_tool_calls client response (new_assistant_message response show) w =
    (Returned (reply client response show),
     extend w [] (flat_map (tool_events client)
                    (default [] (tool_calls (message response))))).
Proof.
  unfold handle_tool_calls, reply, tool_blocks, merged_content.
  destruct (tool_calls (message response)) as [[|tc calls]|]; simpl;
    try (unfold ret; by rewrite extend_nil).
  unfold bind at 1.
  change (bind (handle_tool_call client tc []) _)
    with (for_each (tc :: calls) (handle_tool_call client) []).
  rewrite for_each_tool_calls. simpl.
  destruct (truthy _); [|done].
  unfold bind, lift, getitem, ret.
  by rewrite new_assistant_message_content.
Qed.

Lemma show_thinking_of_run {A} msg show w text (k : Py A) :
  msg !! "content" = Some text ->
  (show_thinking_of msg show ;;
   text <- lift (getitem msg "content") ;;
   emit (StWrite text) ;;
   k) w = k (extend w [] (shown msg show)).
Proof.
  intros Hc. unfold show_thinking_of, shown, bind, lift, getitem, emit, ret.
  rewrite Hc. simpl.
  destruct (msg !! "thinking") as [t|]; [destruct (truthy t && show)|];
    unfold extend; simpl; by rewrite ?app_nil_r, <- ?app_assoc.
Qed.

Lemma show_thinking_of_write msg show w text :
  msg !! "content" = Some text ->
  (show_thinking_of msg show ;;
   text <- lift (getitem msg "content") ;;
   emit (StWrite text)) w = (Returned tt, extend w [] (shown msg show)).
Proof.
  intros Hc. unfold show_thinking_of, shown, bind, lift, getitem, emit, ret.
  rewrite Hc. simpl.
  destruct (msg !! "thinking") as [t|]; [destruct (truthy t && show)|];
    unfold extend; simpl; by rewrite ?app_nil_r, <- ?app_assoc.
Qed.

(** The three ways [process_ai_response] can go. *)
Lemma process_ai_response_key_error client now user_input enable show w e :
  api_messages now (messages w) = Raised e ->
  process_ai_response client now user_input enable show w = (Raised e, w).
Proof.
  intros Ha. unfold process_ai_response, bind, session_messages, lift.
  by rewrite Ha.
Qed.

Lemma process_ai_response_gateway_error client now user_input enable show w api e :
  api_messages now (messages w) = Returned api ->
  chat client (chat_request api (get_available_tools client enable) show)
    = Raised e ->
  process_ai_response client now user_input enable show w =
    (Returned tt,
     extend w []
       [ClientChat (chat_request api (get_available_tools client enable) show);
        StError (py "Error getting AI response: " ++ e)]).
Proof.
  intros Ha Hc.
  unfold process_ai_response, bind, session_messages, lift, try_except,
    client_chat, bind, emit, lift.
  rewrite Ha. simpl. rewrite Hc. simpl.
  unfold extend. simpl. by rewrite app_nil_r, <- app_assoc.
Qed.

Lemma process_ai_response_reply client now user_input enable show w api response :
  api_messages now (messages w) = Returned api ->
  chat client (chat_request api (get_available_tools client enable) show)
    = Returned response ->
  process_ai_response client now user_input enable show w =
    (Returned tt,
     extend w [reply client response show]
       (ClientChat (chat_request api (get_available_tools client enable) show)
        :: flat_map (tool_events client)
             (default [] (tool_calls (message response)))
        ++ shown (reply client response show) show)).
Proof.
  intros Ha Hc.
  unfold process_ai_response.
  unfold bind at 1. unfold session_messages.
  unfold bind at 1. unfold lift at 1. rewrite Ha.
  unfold try_except.
  unfold bind at 1. unfold client_chat at 1. unfold bind at 1.
  unfold emit at 1, lift at 1. simpl. rewrite Hc.
  unfold bind at 1. rewrite handle_tool_calls_run.
  rewrite (show_thinking_of_run _ _ _ _ _ (reply_content client response show)).
  unfold session_append, extend. simpl.
  by rewrite !app_nil_r, <- !app_assoc.
Qed.

Lemma project_well_formed msg :
  well_formed msg -> project msg = Returned (projection msg).
Proof.
  intros [[r Hr] [c Hc]]. unfold project, projection, getitem, obind.
  by rewrite Hr, Hc.
Qed.

Lemma project_all_well_formed history :
  Forall well_formed history ->
  project_all history = Returned (projection <$> history).
Proof.
  induction 1 as [|msg history Hmsg _ IH]; simpl; [done|].
  by rewrite (project_well_formed _ Hmsg), IH.
Qed.

Lemma api_messages_well_formed now history :
  Forall well_formed history ->
  api_messages now history
    = Returned (system_message now :: (projection <$> history)).
Proof.
  intros Hwf. unfold api_messages.
  by rewrite (project_all_well_formed _ Hwf).
Qed.

Lemma user_message_well_formed user_input : well_formed (user_message user_input).
Proof. unfold well_formed, user_message. split; eexists; by simplify_map_eq. Qed.

Lemma reply_well_formed client response show :
  well_formed (reply client response show).
Proof.
  split; eexists; [apply reply_role | apply reply_content].
Qed.

Lemma display_message_run show msg w :
  well_formed msg ->
  display_message show msg tt w = (Returned tt, extend w [] (displayed show msg)).
Proof.
  intros [[r Hr] [c Hc]]. unfold display_message, displayed.
  unfold bind at 1. unfold lift at 1, getitem at 1. rewrite Hr.
  destruct (decide (r = py "user")) as [->|Hu].
  - destruct (decide (Some (py "user") = Some (py "user"))); [|done].
    unfold bind, lift, getitem, emit. rewrite Hc. simpl.
    unfold extend. simpl. by rewrite app_nil_r.
  - destruct (decide (Some r = Some (py "user"))); [congruence|].
    destruct (decide (r = py "assistant")) as [->|Ha].
    + destruct (decide (Some (py "assistant") = Some (py "assistant"))); [|done].
      apply (show_thinking_of_write msg show w c Hc).
    + destruct (decide (Some r = Some (py "assistant"))); [congruence|].
      unfold ret. by rewrite extend_nil.
Qed.

Lemma display_loop_run show history w :
  Forall well_formed history ->
  for_each history (display_message show) tt w
    = (Returned tt, extend w [] (flat_map (displayed show) history)).
Proof.
  intros Hwf. revert w.
  induction Hwf as [|msg history Hmsg _ IH]; intros w; simpl.
  - unfold ret. by rewrite extend_nil.
  - unfold bind. rewrite (display_message_run _ _ _ Hmsg), IH.
    by rewrite extend_extend.
Qed.

Lemma display_chat_history_run show w :
  Forall well_formed (messages w) ->
  display_chat_history show w
    = (Returned tt, extend w [] (flat_map (displayed show) (messages w))).
Proof.
  intros Hwf. unfold display_chat_history, bind, session_messages.
  by apply display_loop_run.
Qed.

Lemma messages_extend w ms evs : messages (extend w ms evs) = messages w ++ ms.
Proof. done. Qed.

Lemma trace_extend w ms evs : trace (extend w ms evs) = trace w ++ evs.
Proof. done. Qed.

Lemma well_formed_submitted w user_input :
  Forall well_formed (messages w) ->
  Forall well_formed (messages w ++ [user_message user_input]).
Proof.
  intros Hwf. apply Forall_app. split; [done|].
  constructor; [apply user_message_well_formed | constructor].
Qed.

Lemma chat_turn_nothing client now enable show chat_input w :
  truthy_opt chat_input = false ->
  chat_turn client now enable show chat_input w = (Returned tt, w).
Proof. destruct chat_input as [[|a u]|]; done. Qed.

Lemma chat_turn_gateway_error client now enable show user_input w e :
  truthy user_input = true ->
  Forall well_formed (messages w) ->
  chat client (turn_request client now enable show
                 (messages w ++ [user_message user_input])) = Raised e ->
  chat_turn client now enable show (Some user_input) w =
    (Returned tt,
     extend w [user_message user_input]
       [StWrite user_input;
        ClientChat (turn_request client now enable show
                      (messages w ++ [user_message user_input]));
        StError (py "Error getting AI response: " ++ e);
        StRerun]).
Proof.
  intros Hu Hwf Hc. unfold chat_turn. rewrite Hu.
  unfold bind at 1. unfold session_append at 1.
  unfold bind at 1. unfold emit at 1.
  unfold bind at 1.
  pose proof (well_formed_submitted w user_input Hwf) as Hwf'.
  erewrite process_ai_response_gateway_error;
    [| simpl; apply (api_messages_well_formed now _ Hwf') | exact Hc].
  unfold emit, extend. simpl.
  by rewrite app_nil_r, <- !app_assoc.
Qed.

Lemma chat_turn_reply client now enable show user_input w response :
  truthy user_input = true ->
  Forall well_formed (messages w) ->
  chat client (turn_request client now enable show
                 (messages w ++ [user_message user_input])) = Returned response ->
  chat_turn client now enable show (Some user_input) w =
    (Returned tt,
     extend w [user_message user_input; reply client response show]
       (StWrite user_input
        :: ClientChat (turn_request client now enable show
                         (messages w ++ [user_message user_input]))
        :: flat_map (tool_events client)
             (default [] (tool_calls (message response)))
        ++ shown (reply client response show) show ++ [StRerun])).
Proof.
  intros Hu Hwf Hc. unfold chat_turn. rewrite Hu.
  unfold bind at 1. unfold session_append at 1.
  unfold bind at 1. unfold emit at 1.
  unfold bind at 1.
  pose proof (well_formed_submitted w user_input Hwf) as Hwf'.
  erewrite process_ai_response_reply;
    [| simpl; apply (api_messages_well_formed now _ Hwf') | exact Hc].
  unfold emit, extend. simpl.
  do 2 f_equal; by rewrite <- ?app_assoc; simpl; rewrite <- ?app_assoc.
Qed.

(** The stored messages after one run of [main]. *)
Lemma main_messages r w :
  Forall well_formed (messages w) ->
  messages (snd (main r w)) =
    if run_clear r then []
    else match run_input r with
         | Some user_input =>
             if truthy user_input then
               messages w ++ user_message user_input ::
                 match chat (run_client r)
                         (turn_request (run_client r) (run_time r)
                            (run_web_search r) (run_thinking r)
                            (messages w ++ [user_message user_input])) with
                 | Returned response =>
                     [reply (run_client r) response (run_thinking r)]
                 | Raised _ => []
                 end
             else messages w
         | None => messages w
         end.
Proof.
  intros Hwf. unfold main. destruct (run_clear r); [done|].
  unfold bind at 1. rewrite (display_chat_history_run _ _ Hwf).
  set (w1 := extend w [] _).
  assert (Hm : messages w1 = messages w) by (simpl; apply app_nil_r).
  assert (Hwf1 : Forall well_formed (messages w1)) by (by rewrite Hm).
  destruct (run_input r) as [u|]; [|by rewrite chat_turn_nothing].
  destruct (truthy u) eqn:Hu.
  - rewrite <- Hm.
    destruct (chat (run_client r) _) as [response|e] eqn:Hc.
    + by rewrite (chat_turn_reply _ _ _ _ _ _ _ Hu Hwf1 Hc).
    + by rewrite (chat_turn_gateway_error _ _ _ _ _ _ _ Hu Hwf1 Hc).
  - rewrite chat_turn_nothing; [done|]. simpl. by rewrite Hu.
Qed.

Lemma main_well_formed r w :
  Forall well_formed (messages w) ->
  Forall well_formed (messages (snd (main r w))).
Proof.
  intros Hwf. rewrite (main_messages _ _ Hwf).
  destruct (run_clear r); [constructor|].
  destruct (run_input r) as [u|]; [|done].
  destruct (truthy u); [|done].
  apply Forall_app. split; [done|].
  constructor; [apply user_message_well_formed|].
  destruct (chat _ _); [|constructor].
  constructor; [apply reply_well_formed | constructor].
Qed.

Lemma run_all_well_formed runs w :
  Forall well_formed (messages w) ->
  Forall well_formed (messages (run_all runs w)).
Proof.
  revert w. induction runs as [|r runs IH]; intros w Hwf; simpl; [done|].
  by apply IH, main_well_formed.
Qed.

Lemma run_all_app runs1 runs2 w :
  run_all (runs1 ++ runs2) w = run_all runs2 (run_all runs1 w).
Proof. revert w. induction runs1 as [|r runs1 IH]; intros w; simpl; auto. Qed.

(** *** Sequences of runs *)

Lemma stored_well_formed m : stored m -> well_formed m.
Proof. intros [[Hr|Hr] Hc]; split; by eauto. Qed.

Lemma main_stored r w :
  Forall stored (messages w) -> Forall stored (messages (snd (main r w))).
Proof.
  intros Hst.
  rewrite main_messages by (eapply Forall_impl; [exact Hst|apply stored_well_formed]).
  destruct (run_clear r); [constructor|].
  destruct (run_input r) as [u|]; [|done].
  destruct (truthy u); [|done].
  apply Forall_app. split; [done|].
  constructor.
  - split; [left|eexists]; unfold user_message; by simplify_map_eq.
  - destruct (chat _ _) as [response|e]; [|constructor].
    constructor; [|constructor].
    split; [right; apply reply_role | eexists; apply reply_content].
Qed.

Lemma run_all_stored runs w :
  Forall stored (messages w) -> Forall stored (messages (run_all runs w)).
Proof.
  revert w. induction runs as [|r runs IH]; intros w Hst; simpl; [done|].
  by apply IH, main_stored.
Qed.

Lemma main_completes r w :
  Forall well_formed (messages w) ->
  completes r w ->
  exists user_input response,
    run_input r = Some user_input /\
    messages (snd (main r w)) =
      messages w ++ [user_message user_input;
                     reply (run_client r) response (run_thinking r)].
Proof.
  intros Hwf [Hclear (u & response & Hin & Hu & Hc)].
  exists u, response. split; [done|].
  rewrite (main_messages _ _ Hwf), Hclear, Hin, Hu. by rewrite Hc.
Qed.

Lemma all_complete_app runs1 runs2 w :
  all_complete (runs1 ++ runs2) w ->
  all_complete runs1 w /\ all_complete runs2 (run_all runs1 w).
Proof.
  revert w. induction runs1 as [|r runs1 IH]; intros w; simpl; [done|].
  intros [Hr Hrest]. destruct (IH _ Hrest). done.
Qed.

Lemma run_all_complete runs w :
  Forall well_formed (messages w) ->
  all_complete runs w ->
  exists added,
    messages (run_all runs w) = messages w ++ added /\
    length added = 2 * length runs /\
    forall i r, runs !! i = Some r ->
      exists user_input assistant_message,
        run_input r = Some user_input /\
        added !! (2 * i) = Some (user_message user_input) /\
        added !! (2 * i + 1) = Some assistant_message /\
        assistant_message !! "role" = Some (py "assistant").
Proof.
  revert w. induction runs as [|r runs IH]; intros w Hwf Hall; simpl.
  - exists []. split; [by rewrite app_nil_r|]. split; [done|].
    intros i r' Hi. by rewrite lookup_nil in Hi.
  - destruct Hall as [Hr Hrest].
    destruct (main_completes _ _ Hwf Hr) as (u & response & Hin & Hm).
    destruct (IH _ (main_well_formed r w Hwf) Hrest) as (added & Hadded & Hlen & Hat).
    exists ([user_message u; reply (run_client r) response (run_thinking r)]
              ++ added).
    split; [|split].
    + by rewrite Hadded, Hm, <- app_assoc.
    + simpl. lia.
    + intros [|i] r' Hi; simpl in Hi.
      * injection Hi as <-. exists u, (reply (run_client r) response (run_thinking r)).
        split; [done|]. split; [done|]. split; [done|]. apply reply_role.
      * destruct (Hat i r' Hi) as (u' & m & Hin' & Hu' & Hm' & Hrole).
        exists u', m. split; [done|].
        replace (S i + (S i + 0)) with (S (S (2 * i))) by lia.
        replace (S (S (2 * i)) + 1) with (S (S (2 * i + 1))) by lia.
        split; [exact Hu'|]. split; [exact Hm'|exact Hrole].
Qed.

Lemma tool_events_resolves client tool_call :
  tool_events client tool_call
    = if resolves client tool_call then [invocation tool_call] else [].
Proof.
  unfold tool_events, resolves, invocation, handle_tool_call.
  destruct (getattr client _) as [f|]; simpl; [|done].
  destruct (py_bool f); [|done].
  unfold try_except, bind, call_tool, bind, emit, lift, ret. simpl.
  by destruct (py_call f _).
Qed.

Lemma tool_block_length client tool_call :
  length (tool_block client tool_call)
    = if resolves client tool_call then 1 else 0.
Proof.
  unfold tool_block, resolves, handle_tool_call.
  destruct (getattr client _) as [f|]; simpl; [|done].
  destruct (py_bool f); [|done].
  unfold try_except, bind, call_tool, bind, emit, lift, ret. simpl.
  by destruct (py_call f _).
Qed.

Lemma flat_map_tool_events client calls :
  flat_map (tool_events client) calls
    = invocation <$> List.filter (resolves client) calls.
Proof.
  induction calls as [|tc calls IH]; simpl; [done|].
  rewrite tool_events_resolves, IH. by destruct (resolves client tc).
Qed.

Lemma flat_map_tool_block_length client calls :
  length (flat_map (tool_block client) calls)
    = length (List.filter (resolves client) calls).
Proof.
  induction calls as [|tc calls IH]; simpl; [done|].
  rewrite length_app, tool_block_length, IH.
  by destruct (resolves client tc).
Qed.

Lemma filter_invocation_shown msg show :
  List.filter is_invocation (shown msg show) = [].
Proof.
  unfold shown.
  destruct (msg !! "thinking") as [t|]; [destruct (truthy t && show)|]; done.
Qed.

(** [sep.join] of a non-empty list: the first part, then each further
    part behind a separator. *)
Lemma join_cons sep first others :
  join sep (first :: others)
    = first ++ concat ((fun part => sep ++ part) <$> others).
Proof.
  revert first. induction others as [|part others IH]; intros first.
  - simpl. by rewrite app_nil_r.
  - change (join sep (first :: part :: others))
      with (first ++ sep ++ join sep (part :: others)).
    rewrite IH. simpl. by rewrite <- app_assoc.
Qed.

Lemma merged_content_cons base first others :
  merged_content base (first :: others)
    = base ++ results_heading
        ++ first ++ concat ((fun block => results_separator ++ block) <$> others).
Proof. unfold merged_content. cbn [truthy]. by rewrite join_cons. Qed.

(** ** The script on small inputs *)

Example join_three :
  join (py ", ") [py "a"; py "b"; py "c"] = py "a, b, c".
Proof. reflexivity. Qed.

Example format_short :
  format_result (py "web_search") (py "Sunny, 25C")
    = py "**web_search**:" ++ nl ++ py "Sunny, 25C".
Proof. reflexivity. Qed.

Example format_exactly_2000 :
  format_result (py "t") (replicate 2000 120%N)
    = py "**t**:" ++ nl ++ replicate 2000 120%N.
Proof. vm_compute. reflexivity. Qed.

Example format_2001 :
  format_result (py "t") (replicate 2001 120%N)
    = py "**t**:" ++ nl ++ replicate 2000 120%N ++ py "..." ++ nl ++ nl
        ++ py "*[Result truncated - showing first 2000 characters]*".
Proof. vm_compute. reflexivity. Qed.

Example lookup_finds_both_tools :
  object_truthy (getattr offline (py "web_search")) = true /\
  object_truthy (getattr offline (py "web_fetch")) = true /\
  object_truthy (getattr offline (py "web_browse")) = false.
Proof. repeat split. Qed.

Example chat_can_be_called_as_a_tool :
  object_truthy (getattr (scripted reentrant_response) (py "chat")) = true /\
  for_each (default [] (tool_calls (message reentrant_response)))
    (handle_tool_call (scripted reentrant_response)) [] initial =
    (Returned [py "**chat Error**: model is required"],
     {| messages := [];
        trace := [ToolInvoked (py "chat") {[ py "model" := py "qwen3:4b" ]}] |}).
Proof. split; reflexivity. Qed.

Example join_keeps_every_part :
  join results_separator [py "a"; py "b"; py "c"]
    = py "a" ++ nl ++ nl ++ py "---" ++ nl ++ nl ++ py "b"
        ++ nl ++ nl ++ py "---" ++ nl ++ nl ++ py "c".
Proof. reflexivity. Qed.

Example empty_submission_does_nothing :
  chat_turn offline monday true false (Some []) initial = (Returned tt, initial).
Proof. reflexivity. Qed.

Example clear_empties_the_session :
  messages (snd (main {| run_client := offline; run_time := monday;
                         run_web_search := true; run_thinking := false;
                         run_clear := true; run_input := None |}
                   remembered)) = [].
Proof. reflexivity. Qed.

Example two_turns_store_four_messages :
  messages (run_all two_turns initial) =
    [ user_message (py "What's the weather today?");
      {[ "role" := py "assistant";
         "content" := results_heading ++ py "**web_search**:" ++ nl
                        ++ py "Sunny, 25C" ]};
      user_message (py "Thanks!");
      {[ "role" := py "assistant"; "content" := [] ]} ].
Proof. vm_compute. reflexivity. Qed.

(** ** The claims *)

(** C1: when the client's chat call fails, the turn leaves the stored
    messages as they were with the user's message appended, appends no
    assistant message, and reports the error on the page. *)
Theorem gateway_failure_keeps_only_user_message
    client now enable show user_input w e :
  truthy user_input = true ->
  Forall well_formed (messages w) ->
  chat client (turn_request client now enable show
                 (messages w ++ [user_message user_input])) = Raised e ->
  chat_turn client now enable show (Some user_input) w =
    (Returned tt,
     {| messages := messages w ++ [user_message user_input];
        trace := trace w ++
          [StWrite user_input;
           ClientChat (turn_request client now enable show
                         (messages w ++ [user_message user_input]));
           StError (py "Error getting AI response: " ++ e);
           StRerun] |}).
Proof.
  intros Hu Hwf Hc.
  exact (chat_turn_gateway_error client now enable show user_input w e Hu Hwf Hc).
Qed.

Lemma gateway_failure_example :
  chat_turn offline monday true false (Some (py "What's the weather today?"))
    initial =
    (Returned tt,
     {| messages := [user_message (py "What's the weather today?")];
        trace :=
          [StWrite (py "What's the weather today?");
           ClientChat (turn_request offline monday true false
                         [user_message (py "What's the weather today?")]);
           StError (py "Error getting AI response: connection refused");
           StRerun] |}).
Proof.
  apply (gateway_failure_keeps_only_user_message offline monday true false
           (py "What's the weather today?") initial (py "connection refused")).
  - reflexivity.
  - constructor.
  - reflexivity.
Defined.

(** C3: a tool call that returns adds one block.  When [str(result)]
    has at most 2000 characters the block is the name line followed by
    the string as it is; when it has more, the block is the name line,
    its first 2000 characters and the truncation marker. *)
Theorem tool_result_block client tool_call f result_str tool_results w :
  getattr client (name (function tool_call)) = Some f ->
  py_bool f = true ->
  py_call f (arguments (function tool_call)) = Returned result_str ->
  exists block,
    handle_tool_call client tool_call tool_results w =
      (Returned (tool_results ++ [block]),
       {| messages := messages w;
          trace := trace w ++ [ToolInvoked (name (function tool_call))
                                 (arguments (function tool_call))] |}) /\
    (length result_str <= 2000 ->
       block = py "**" ++ name (function tool_call) ++ py "**:" ++ nl
                 ++ result_str) /\
    (2000 < length result_str ->
       length (take 2000 result_str) = 2000 /\
       block = py "**" ++ name (function tool_call) ++ py "**:" ++ nl
                 ++ take 2000 result_str ++ py "..." ++ nl ++ nl
                 ++ py "*[Result truncated - showing first 2000 characters]*").
Proof.
  intros Hf Hb Hr.
  exists (format_result (name (function tool_call)) result_str).
  split; [|split].
  - unfold handle_tool_call. rewrite Hf, Hb.
    unfold try_except, bind, call_tool, bind, emit, lift, ret. simpl.
    by rewrite Hr.
  - intros Hlen. unfold format_result.
    destruct (Nat.ltb_spec 2000 (length result_str)); [lia|done].
  - intros Hlen. split; [rewrite length_take; lia|].
    unfold format_result.
    destruct (Nat.ltb_spec 2000 (length result_str)); [done|lia].
Qed.

Lemma tool_result_block_example :
  exists block,
    handle_tool_call (scripted weather_response)
      (call "web_search" "query" "weather today") [] initial =
      (Returned [block],
       {| messages := [];
          trace := [ToolInvoked (py "web_search")
                      {[ py "query" := py "weather today" ]}] |}) /\
    (length (py "Sunny, 25C") <= 2000 ->
       block = py "**web_search**:" ++ nl ++ py "Sunny, 25C") /\
    (2000 < length (py "Sunny, 25C") ->
       length (take 2000 (py "Sunny, 25C")) = 2000 /\
       block = py "**web_search**:" ++ nl ++ take 2000 (py "Sunny, 25C")
                 ++ py "..." ++ nl ++ nl
                 ++ py "*[Result truncated - showing first 2000 characters]*").
Proof.
  apply (tool_result_block (scripted weather_response)
           (call "web_search" "query" "weather today")
           (bound_method (web_search (scripted weather_response)))
           (py "Sunny, 25C") [] initial).
  - reflexivity.
  - reflexivity.
  - reflexivity.
Defined.

(** C8: the messages sent to the client are the system message followed
    by the stored messages in order, each reduced to a dict of exactly
    its role and its content; no entry of the request has a thinking
    key. *)
Theorem request_is_system_then_projected
    client now user_input enable show w :
  Forall well_formed (messages w) ->
  exists api rest,
    api_messages now (messages w) = Returned api /\
    api = system_message now :: (projection <$> messages w) /\
    (forall i msg, messages w !! i = Some msg ->
       exists sent, api !! S i = Some sent /\
         sent !! "role" = msg !! "role" /\
         sent !! "content" = msg !! "content" /\
         dom sent = ({[ "role"; "content" ]} : gset string)) /\
    Forall (fun sent : Message => sent !! "thinking" = None) api /\
    trace (snd (process_ai_response client now user_input enable show w)) =
      trace w ++
        ClientChat {| req_model := py "qwen3:4b";
                      req_messages := api;
                      req_tools := get_available_tools client enable;
                      req_think := show |} :: rest.
Proof.
  intros Hwf.
  pose proof (api_messages_well_formed now _ Hwf) as Ha.
  set (api := system_message now :: (projection <$> messages w)) in *.
  assert (Hrest : exists rest,
    trace (snd (process_ai_response client now user_input enable show w)) =
      trace w ++ ClientChat (chat_request api
                               (get_available_tools client enable) show) :: rest).
  { destruct (chat client (chat_request api
                (get_available_tools client enable) show)) as [response|e] eqn:Hc.
    - rewrite (process_ai_response_reply _ _ _ _ _ _ _ _ Ha Hc). by eexists.
    - rewrite (process_ai_response_gateway_error _ _ _ _ _ _ _ _ Ha Hc).
      by eexists. }
  destruct Hrest as [rest Hrest].
  exists api, rest. split; [done|]. split; [done|]. split; [|split; [|done]].
  - intros i msg Hi. exists (projection msg). split.
    + subst api. simpl. by rewrite list_lookup_fmap, Hi.
    + rewrite Forall_forall in Hwf.
      destruct (Hwf msg) as [[r Hr] [c Hc]].
      { apply list_elem_of_lookup. by exists i. }
      unfold projection. rewrite Hr, Hc. simpl.
      split; [by simplify_map_eq|]. split; [by simplify_map_eq|].
      rewrite dom_insert_L, dom_singleton_L. set_solver.
  - subst api. constructor.
    + unfold system_message. by simplify_map_eq.
    + apply Forall_fmap, Forall_forall. intros msg _. simpl.
      unfold projection. by simplify_map_eq.
Qed.

Lemma request_is_system_then_projected_example :
  Forall well_formed (messages remembered) /\
  exists api rest,
    api_messages monday (messages remembered) = Returned api /\
    api = system_message monday :: (projection <$> messages remembered) /\
    (forall i msg, messages remembered !! i = Some msg ->
       exists sent, api !! S i = Some sent /\
         sent !! "role" = msg !! "role" /\
         sent !! "content" = msg !! "content" /\
         dom sent = ({[ "role"; "content" ]} : gset string)) /\
    Forall (fun sent : Message => sent !! "thinking" = None) api /\
    trace (snd (process_ai_response offline monday (py "and now?") true true
                  remembered)) =
      trace remembered ++
        ClientChat {| req_model := py "qwen3:4b";
                      req_messages := api;
                      req_tools := get_available_tools offline true;
                      req_think := true |} :: rest.
Proof.
  assert (Hwf : Forall well_formed (messages remembered)).
  { repeat constructor; eexists; reflexivity. }
  split; [exact Hwf|].
  exact (request_is_system_then_projected offline monday (py "and now?")
           true true remembered Hwf).
Defined.

(** C9: when the tool calls produce at least one block, the stored
    reply's content is the model's content, then the divider and the
    Tool Results heading, then the blocks of the calls in the order of
    the calls: the first block, and each further block behind a
    separator. *)
Theorem tool_results_are_merged_in_order
    client now user_input enable show w response :
  Forall well_formed (messages w) ->
  chat client (turn_request client now enable show (messages w))
    = Returned response ->
  truthy (flat_map (tool_block client)
            (default [] (tool_calls (message response)))) = true ->
  exists assistant_message events,
    process_ai_response client now user_input enable show w =
      (Returned tt,
       {| messages := messages w ++ [assistant_message];
          trace := trace w ++ events |}) /\
    assistant_message !! "role" = Some (py "assistant") /\
    assistant_message !! "content" =
      Some (or_empty (content (message response))
            ++ (nl ++ nl ++ py "---" ++ nl ++ nl ++ py "**" ++ magnifier
                  ++ py " Tool Results:**" ++ nl ++ nl)
            ++ match flat_map (tool_block client)
                       (default [] (tool_calls (message response))) with
               | [] => []
               | first :: others =>
                   first ++ concat ((fun block =>
                                       (nl ++ nl ++ py "---" ++ nl ++ nl) ++ block)
                                    <$> others)
               end).
Proof.
  intros Hwf Hc Hblocks.
  pose proof (api_messages_well_formed now _ Hwf) as Ha.
  eexists _, _. split; [|split].
  - exact (process_ai_response_reply _ _ _ _ _ _ _ _ Ha Hc).
  - apply reply_role.
  - rewrite reply_content. unfold merged_content, tool_blocks.
    rewrite Hblocks.
    destruct (flat_map _ _) as [|first others]; [done|].
    by rewrite join_cons.
Qed.

(** Three calls, the second of which raises: three blocks in the order
    of the calls, with a separator between neighbours.  And Scenario A:
    an empty content and one [web_search] call that finds
    ["Sunny, 25C"]. *)
Lemma merged_in_order_examples :
  (exists assistant_message events,
     process_ai_response (scripted busy_response) monday
       (py "Weather, please") true false (asked "Weather, please") =
       (Returned tt,
        {| messages := [user_message (py "Weather, please"); assistant_message];
           trace := events |}) /\
     assistant_message !! "role" = Some (py "assistant") /\
     assistant_message !! "content" =
       Some (py "Let me check."
             ++ nl ++ nl ++ py "---" ++ nl ++ nl ++ py "**" ++ magnifier
             ++ py " Tool Results:**" ++ nl ++ nl
             ++ py "**web_search**:" ++ nl ++ py "Sunny, 25C"
             ++ nl ++ nl ++ py "---" ++ nl ++ nl
             ++ py "**web_fetch Error**: timeout"
             ++ nl ++ nl ++ py "---" ++ nl ++ nl
             ++ py "**web_search**:" ++ nl ++ py "Sunny, 25C")) /\
  (exists assistant_message events,
     process_ai_response (scripted weather_response) monday
       (py "What's the weather today?") true false
       (asked "What's the weather today?") =
       (Returned tt,
        {| messages := [user_message (py "What's the weather today?");
                        assistant_message];
           trace := events |}) /\
     assistant_message !! "role" = Some (py "assistant") /\
     assistant_message !! "content" =
       Some (nl ++ nl ++ py "---" ++ nl ++ nl ++ py "**" ++ magnifier
               ++ py " Tool Results:**" ++ nl ++ nl
               ++ py "**web_search**:" ++ nl ++ py "Sunny, 25C")).
Proof.
  split.
  - apply (tool_results_are_merged_in_order (scripted busy_response) monday
             (py "Weather, please") true false (asked "Weather, please")
             busy_response).
    + repeat constructor; eexists; reflexivity.
    + reflexivity.
    + reflexivity.
  - apply (tool_results_are_merged_in_order (scripted weather_response) monday
             (py "What's the weather today?") true false
             (asked "What's the weather today?") weather_response).
    + repeat constructor; eexists; reflexivity.
    + reflexivity.
    + reflexivity.
Defined.

(** C10: when the response has no content, the reply is built with the
    empty string as content, and the turn stores it like any other
    reply, with the tool blocks merged in if there are any. *)
Theorem missing_content_is_empty
    client now user_input enable show w response :
  Forall well_formed (messages w) ->
  chat client (turn_request client now enable show (messages w))
    = Returned response ->
  content (message response) = None ->
  new_assistant_message response show !! "content" = Some [] /\
  exists assistant_message events,
    process_ai_response client now user_input enable show w =
      (Returned tt,
       {| messages := messages w ++ [assistant_message];
          trace := trace w ++ events |}) /\
    assistant_message !! "role" = Some (py "assistant") /\
    assistant_message !! "content" =
      Some (let blocks := flat_map (tool_block client)
                            (default [] (tool_calls (message response))) in
            if truthy blocks then
              results_heading ++ join results_separator blocks
            else []).
Proof.
  intros Hwf Hc Hnone.
  pose proof (api_messages_well_formed now _ Hwf) as Ha.
  split.
  - rewrite new_assistant_message_content. by rewrite Hnone.
  - eexists _, _. split; [|split].
    + exact (process_ai_response_reply _ _ _ _ _ _ _ _ Ha Hc).
    + apply reply_role.
    + rewrite reply_content. unfold merged_content, tool_blocks.
      by rewrite Hnone.
Qed.

Lemma missing_content_example :
  new_assistant_message silent_response false !! "content" = Some [] /\
  exists assistant_message events,
    process_ai_response (scripted silent_response) monday (py "hello")
      true false (asked "hello") =
      (Returned tt,
       {| messages := [user_message (py "hello"); assistant_message];
          trace := events |}) /\
    assistant_message !! "role" = Some (py "assistant") /\
    assistant_message !! "content" = Some [].
Proof.
  apply (missing_content_is_empty (scripted silent_response) monday
           (py "hello") true false (asked "hello") silent_response).
  - repeat constructor; eexists; reflexivity.
  - reflexivity.
  - reflexivity.
Defined.

(** C2, as the specification has it, fails: a tool call whose name the
    client does not have leaves no block.  The model asks for
    [web_browse]; the lookup gives [None], nothing is invoked, and the
    stored reply is the model's content alone. *)
Lemma unknown_tool_leaves_no_block :
  getattr (scripted browse_response) (py "web_browse") = None /\
  tool_block (scripted browse_response)
    (call "web_browse" "url" "https://example.org") = [] /\
  process_ai_response (scripted browse_response) monday (py "Open example.org")
    true false (asked "Open example.org") =
    (Returned tt,
     {| messages :=
          [user_message (py "Open example.org");
           {[ "role" := py "assistant"; "content" := py "Looking." ]}];
        trace :=
          [ClientChat (turn_request (scripted browse_response) monday true
                         false [user_message (py "Open example.org")]);
           StWrite (py "Looking.")] |}).
Proof. split; [|split]; reflexivity. Qed.

(** C2, amended: a tool call whose name gives no true attribute of the
    client is skipped: it adds no block, the blocks of the other calls
    are merged as if it were not there, and the turn stores the reply. *)
Theorem unresolved_tool_call_is_skipped
    client now user_input enable show w response before tool_call after :
  Forall well_formed (messages w) ->
  chat client (turn_request client now enable show (messages w))
    = Returned response ->
  tool_calls (message response) = Some (before ++ tool_call :: after) ->
  object_truthy (getattr client (name (function tool_call))) = false ->
  tool_block client tool_call = [] /\
  exists assistant_message events,
    process_ai_response client now user_input enable show w =
      (Returned tt,
       {| messages := messages w ++ [assistant_message];
          trace := trace w ++ events |}) /\
    assistant_message !! "role" = Some (py "assistant") /\
    assistant_message !! "content" =
      Some (let blocks := flat_map (tool_block client) before
                            ++ flat_map (tool_block client) after in
            if truthy blocks then
              or_empty (content (message response)) ++ results_heading
                ++ join results_separator blocks
            else or_empty (content (message response))).
Proof.
  intros Hwf Hc Hcalls Hfalse.
  pose proof (api_messages_well_formed now _ Hwf) as Ha.
  assert (Hskip : tool_block client tool_call = []).
  { unfold tool_block, handle_tool_call.
    destruct (getattr client _) as [f|]; [|done].
    simpl in Hfalse. by rewrite Hfalse. }
  split; [done|].
  eexists _, _. split; [|split].
  - exact (process_ai_response_reply _ _ _ _ _ _ _ _ Ha Hc).
  - apply reply_role.
  - rewrite reply_content. unfold merged_content, tool_blocks.
    rewrite Hcalls. simpl. by rewrite flat_map_app; simpl; rewrite Hskip.
Qed.

Lemma unresolved_tool_call_example :
  tool_block (scripted browse_response)
    (call "web_browse" "url" "https://example.org") = [] /\
  exists assistant_message events,
    process_ai_response (scripted browse_response) monday
      (py "Open example.org") true false (asked "Open example.org") =
      (Returned tt,
       {| messages := [user_message (py "Open example.org"); assistant_message];
          trace := events |}) /\
    assistant_message !! "role" = Some (py "assistant") /\
    assistant_message !! "content" = Some (py "Looking.").
Proof.
  apply (unresolved_tool_call_is_skipped (scripted browse_response) monday
           (py "Open example.org") true false (asked "Open example.org")
           browse_response []
           (call "web_browse" "url" "https://example.org") []).
  - repeat constructor; eexists; reflexivity.
  - reflexivity.
  - reflexivity.
  - reflexivity.
Defined.

(** C4, as the specification has it, fails: with web search switched
    off no tool is offered to the model, yet the lookup still finds
    [web_search] on the client and the call is made; and a name that is
    no tool at all, [chat], resolves as well. *)
Lemma switched_off_tools_still_resolve :
  get_available_tools (scripted weather_response) false = [] /\
  object_truthy (getattr (scripted weather_response) (py "chat")) = true /\
  object_truthy (getattr (scripted weather_response) (py "web_search")) = true /\
  process_ai_response (scripted weather_response) monday
    (py "What's the weather today?") false false
    (asked "What's the weather today?") =
    (Returned tt,
     {| messages :=
          [user_message (py "What's the weather today?");
           {[ "role" := py "assistant";
              "content" := results_heading ++ py "**web_search**:" ++ nl
                             ++ py "Sunny, 25C" ]}];
        trace :=
          [ClientChat (turn_request (scripted weather_response) monday false
                         false [user_message (py "What's the weather today?")]);
           ToolInvoked (py "web_search") {[ py "query" := py "weather today" ]};
           StWrite (results_heading ++ py "**web_search**:" ++ nl
                      ++ py "Sunny, 25C")] |}).
Proof. split; [|split; [|split]]; reflexivity. Qed.

(** C4, amended: the tools offered to the model, in the request of the
    chat call, are [web_search] and [web_fetch] when web search is on
    and none when it is off.  The lookup made for a tool call does not
    depend on that switch: a name resolves exactly when it is
    [web_search], [web_fetch], [chat], or the name of another true
    attribute of the client, and with the switch on or off the turn
    invokes every call whose name resolves, in the order of the calls,
    and no other. *)
Theorem lookup_is_by_attribute
    client now user_input enable show w response :
  Forall well_formed (messages w) ->
  chat client (turn_request client now enable show (messages w))
    = Returned response ->
  get_available_tools client true
    = [bound_method (web_search client); bound_method (web_fetch client)] /\
  get_available_tools client false = [] /\
  (forall function_name,
     object_truthy (getattr client function_name) = true <->
       function_name = py "web_search" \/
       function_name = py "web_fetch" \/
       function_name = py "chat" \/
       exists f, other_attrs client function_name = Some f /\ py_bool f = true) /\
  exists assistant_message events,
    process_ai_response client now user_input enable show w =
      (Returned tt,
       {| messages := messages w ++ [assistant_message];
          trace := trace w ++
            ClientChat {| req_model := py "qwen3:4b";
                          req_messages :=
                            system_message now :: (projection <$> messages w);
                          req_tools := get_available_tools client enable;
                          req_think := show |}
            :: ((fun tool_call =>
                   ToolInvoked (name (function tool_call))
                     (arguments (function tool_call)))
                <$> List.filter
                      (fun tool_call =>
                         object_truthy
                           (getattr client (name (function tool_call))))
                      (default [] (tool_calls (message response))))
            ++ events |}) /\
    List.filter is_invocation events = [].
Proof.
  intros Hwf Hc.
  pose proof (api_messages_well_formed now _ Hwf) as Ha.
  split; [done|]. split; [done|]. split.
  - intros function_name. unfold getattr.
    destruct (decide (function_name = py "web_search")) as [->|Hs];
      [by split; auto|].
    destruct (decide (function_name = py "web_fetch")) as [->|Hf];
      [by split; auto|].
    destruct (decide (function_name = py "chat")) as [->|Hch];
      [by split; auto|].
    split.
    + intros Ht. right. right. right.
      destruct (other_attrs client function_name) as [f|]; [|done].
      by exists f.
    + intros [?|[?|[?|[f [Hf' Hb]]]]]; [done|done|done|]. by rewrite Hf'.
  - exists (reply client response show), (shown (reply client response show) show).
    split; [|apply filter_invocation_shown].
    rewrite (process_ai_response_reply _ _ _ _ _ _ _ _ Ha Hc).
    by rewrite flat_map_tool_events.
Qed.

(** With web search off, a search, a call of a name the client lacks
    and a fetch: the search and the fetch are invoked. *)
Lemma lookup_is_by_attribute_example :
  get_available_tools (scripted mixed_response) true
    = [bound_method (web_search (scripted mixed_response));
       bound_method (web_fetch (scripted mixed_response))] /\
  get_available_tools (scripted mixed_response) false = [] /\
  (forall function_name,
     object_truthy (getattr (scripted mixed_response) function_name) = true <->
       function_name = py "web_search" \/
       function_name = py "web_fetch" \/
       function_name = py "chat" \/
       exists f, other_attrs (scripted mixed_response) function_name = Some f
                 /\ py_bool f = true) /\
  exists assistant_message events,
    process_ai_response (scripted mixed_response) monday
      (py "Weather, please") false false (asked "Weather, please") =
      (Returned tt,
       {| messages := [user_message (py "Weather, please"); assistant_message];
          trace :=
            ClientChat {| req_model := py "qwen3:4b";
                          req_messages :=
                            [system_message monday;
                             user_message (py "Weather, please")];
                          req_tools := [];
                          req_think := false |}
            :: [ToolInvoked (py "web_search")
                  {[ py "query" := py "weather today" ]};
                ToolInvoked (py "web_fetch")
                  {[ py "url" := py "https://example.org" ]}]
            ++ events |}) /\
    List.filter is_invocation events = [].
Proof.
  apply (lookup_is_by_attribute (scripted mixed_response) monday
           (py "Weather, please") false false (asked "Weather, please")
           mixed_response).
  - repeat constructor; eexists; reflexivity.
  - reflexivity.
Defined.

(** C5: a tool call that raises adds the error block of that call and
    nothing else changes: the blocks of the calls before and after it
    are the ones they produce on their own, and the turn stores the
    reply with the model's content, the heading, and all the blocks in
    the order of the calls, the first as it is and each further one
    behind a separator. *)
Theorem raising_tool_call_is_isolated
    client now user_input enable show w response before tool_call after f e :
  Forall well_formed (messages w) ->
  chat client (turn_request client now enable show (messages w))
    = Returned response ->
  tool_calls (message response) = Some (before ++ tool_call :: after) ->
  getattr client (name (function tool_call)) = Some f ->
  py_bool f = true ->
  py_call f (arguments (function tool_call)) = Raised e ->
  exists assistant_message events,
    process_ai_response client now user_input enable show w =
      (Returned tt,
       {| messages := messages w ++ [assistant_message];
          trace := trace w ++ events |}) /\
    assistant_message !! "role" = Some (py "assistant") /\
    assistant_message !! "content" =
      Some (or_empty (content (message response))
            ++ (nl ++ nl ++ py "---" ++ nl ++ nl ++ py "**" ++ magnifier
                  ++ py " Tool Results:**" ++ nl ++ nl)
            ++ match flat_map (tool_block client) before
                       ++ [py "**" ++ name (function tool_call)
                             ++ py " Error**: " ++ e]
                       ++ flat_map (tool_block client) after with
               | [] => []
               | first :: others =>
                   first ++ concat ((fun block =>
                                       (nl ++ nl ++ py "---" ++ nl ++ nl) ++ block)
                                    <$> others)
               end).
Proof.
  intros Hwf Hc Hcalls Hf Hb He.
  pose proof (api_messages_well_formed now _ Hwf) as Ha.
  assert (Hblock : tool_block client tool_call
                   = [format_error (name (function tool_call)) e]).
  { unfold tool_block, handle_tool_call. rewrite Hf, Hb.
    unfold try_except, bind, call_tool, bind, emit, lift, ret. simpl.
    by rewrite He. }
  eexists _, _. split; [|split].
  - exact (process_ai_response_reply _ _ _ _ _ _ _ _ Ha Hc).
  - apply reply_role.
  - rewrite reply_content. unfold tool_blocks.
    rewrite Hcalls.
    change (default [] (Some (before ++ tool_call :: after)))
      with (before ++ tool_call :: after).
    rewrite flat_map_app. cbn [flat_map]. rewrite Hblock.
    destruct (flat_map (tool_block client) before) as [|first others];
      cbn [app]; by rewrite merged_content_cons.
Qed.

(** A fetch that raises between two searches: the searches' blocks are
    there as if the fetch had not raised, with its error block between
    them.  And Scenario C: one [web_fetch] call that raises
    ["timeout"]. *)
Lemma isolated_failure_examples :
  (exists assistant_message events,
     process_ai_response (scripted busy_response) monday
       (py "Weather, please") true false (asked "Weather, please") =
       (Returned tt,
        {| messages := [user_message (py "Weather, please"); assistant_message];
           trace := events |}) /\
     assistant_message !! "role" = Some (py "assistant") /\
     assistant_message !! "content" =
       Some (py "Let me check."
             ++ nl ++ nl ++ py "---" ++ nl ++ nl ++ py "**" ++ magnifier
             ++ py " Tool Results:**" ++ nl ++ nl
             ++ py "**web_search**:" ++ nl ++ py "Sunny, 25C"
             ++ nl ++ nl ++ py "---" ++ nl ++ nl
             ++ py "**web_fetch Error**: timeout"
             ++ nl ++ nl ++ py "---" ++ nl ++ nl
             ++ py "**web_search**:" ++ nl ++ py "Sunny, 25C")) /\
  (exists assistant_message events,
     process_ai_response (scripted fetch_response) monday
       (py "Read example.org") true false (asked "Read example.org") =
       (Returned tt,
        {| messages := [user_message (py "Read example.org"); assistant_message];
           trace := events |}) /\
     assistant_message !! "role" = Some (py "assistant") /\
     assistant_message !! "content" =
       Some (py "Let me read that page."
             ++ nl ++ nl ++ py "---" ++ nl ++ nl ++ py "**" ++ magnifier
             ++ py " Tool Results:**" ++ nl ++ nl
             ++ py "**web_fetch Error**: timeout")).
Proof.
  split.
  - apply (raising_tool_call_is_isolated (scripted busy_response) monday
             (py "Weather, please") true false (asked "Weather, please")
             busy_response
             [call "web_search" "query" "weather today"]
             (call "web_fetch" "url" "https://example.org")
             [call "web_search" "query" "weather tomorrow"]
             (bound_method (web_fetch (scripted busy_response)))
             (py "timeout")).
    + repeat constructor; eexists; reflexivity.
    + reflexivity.
    + reflexivity.
    + reflexivity.
    + reflexivity.
    + reflexivity.
  - apply (raising_tool_call_is_isolated (scripted fetch_response) monday
             (py "Read example.org") true false (asked "Read example.org")
             fetch_response [] (call "web_fetch" "url" "https://example.org") []
             (bound_method (web_fetch (scripted fetch_response)))
             (py "timeout")).
    + repeat constructor; eexists; reflexivity.
    + reflexivity.
    + reflexivity.
    + reflexivity.
    + reflexivity.
    + reflexivity.
Defined.

(** C6: after N turns that all complete, starting from the empty
    session, the stored messages are 2N in number; the messages at 2i
    and 2i+1 are the user message of the i-th turn and an assistant
    message; and the messages stored after any first k turns are still
    there, unchanged and in place, at the start of the final list. *)
Theorem completed_turns_alternate runs :
  all_complete runs initial ->
  length (messages (run_all runs initial)) = 2 * length runs /\
  (forall i r, runs !! i = Some r ->
     exists user_input assistant_message,
       run_input r = Some user_input /\
       messages (run_all runs initial) !! (2 * i)
         = Some ({[ "role" := py "user"; "content" := user_input ]} : Message) /\
       messages (run_all runs initial) !! (2 * i + 1) = Some assistant_message /\
       assistant_message !! "role" = Some (py "assistant")) /\
  (forall k, messages (run_all (take k runs) initial)
               `prefix_of` messages (run_all runs initial)).
Proof.
  intros Hall.
  assert (Hwf0 : Forall well_formed (messages initial)) by constructor.
  destruct (run_all_complete runs initial Hwf0 Hall) as (added & Hadded & Hlen & Hat).
  simpl in Hadded. split; [|split].
  - by rewrite Hadded.
  - intros i r Hi. rewrite Hadded. apply (Hat i r Hi).
  - intros k.
    rewrite <- (take_drop k runs) at 2. rewrite run_all_app.
    rewrite <- (take_drop k runs) in Hall.
    destruct (all_complete_app _ _ _ Hall) as [_ Hdrop].
    destruct (run_all_complete (drop k runs) (run_all (take k runs) initial))
      as (added' & Hadded' & _);
      [by apply run_all_well_formed | done |].
    rewrite Hadded'. by eexists.
Qed.

(** C7: whatever runs the session has gone through (turns that
    complete, turns whose chat call fails, empty submissions, clears),
    no stored message has the role [system]. *)
Theorem system_message_is_never_stored runs :
  Forall (fun m : Message => m !! "role" <> Some (py "system"))
    (messages (run_all runs initial)).
Proof.
  assert (Hst : Forall stored (messages (run_all runs initial))).
  { apply run_all_stored. constructor. }
  eapply Forall_impl; [exact Hst|].
  intros m [[Hr|Hr] _]; rewrite Hr; intros [=].
Qed.

Lemma two_turns_alternate :
  all_complete two_turns initial /\
  length (messages (run_all two_turns initial)) = 2 * length two_turns /\
  (forall i r, two_turns !! i = Some r ->
     exists user_input assistant_message,
       run_input r = Some user_input /\
       messages (run_all two_turns initial) !! (2 * i)
         = Some ({[ "role" := py "user"; "content" := user_input ]} : Message) /\
       messages (run_all two_turns initial) !! (2 * i + 1)
         = Some assistant_message /\
       assistant_message !! "role" = Some (py "assistant")) /\
  (forall k, messages (run_all (take k two_turns) initial)
               `prefix_of` messages (run_all two_turns initial)).
Proof.
  assert (Hall : all_complete two_turns initial).
  { simpl. split; [|split; [|exact I]].
    - split; [reflexivity|].
      exists (py "What's the weather today?"), weather_response.
      split; [reflexivity|]. split; reflexivity.
    - split; [reflexivity|].
      exists (py "Thanks!"), silent_response.
      split; [reflexivity|]. split; reflexivity. }
  split; [exact Hall|].
  exact (completed_turns_alternate two_turns Hall).
Defined.

(** ** Further properties of the script *)

(** *** The tool loop *)

(** X1: the loop over the tool calls never raises and leaves the stored
    messages alone; it invokes exactly the calls whose name resolves,
    once each and in the order of the calls, and returns one block per
    invoked call, after the blocks it started with. *)
Theorem loop_invokes_resolving_calls_in_order client calls tool_results w :
  exists blocks,
    for_each calls (handle_tool_call client) tool_results w =
      (Returned (tool_results ++ blocks),
       {| messages := messages w;
          trace := trace w
            ++ (invocation <$> List.filter (resolves client) calls) |}) /\
    length blocks = length (List.filter (resolves client) calls).
Proof.
  exists (flat_map (tool_block client) calls). split.
  - rewrite for_each_tool_calls, flat_map_tool_events.
    unfold extend. by rewrite app_nil_r.
  - apply flat_map_tool_block_length.
Qed.

Example mixed_calls_invoke_two :
  for_each (default [] (tool_calls (message mixed_response)))
    (handle_tool_call (scripted mixed_response)) [] initial =
    (Returned [py "**web_search**:" ++ nl ++ py "Sunny, 25C";
               py "**web_fetch Error**: timeout"],
     {| messages := [];
        trace := [ToolInvoked (py "web_search")
                    {[ py "query" := py "weather today" ]};
                  ToolInvoked (py "web_fetch")
                    {[ py "url" := py "https://example.org" ]}] |}).
Proof. reflexivity. Qed.

(** X2: a result block is never longer than the tool's name plus 2063
    characters, however long the tool's output is, and it always starts
    with the name line. *)
Theorem result_block_is_bounded function_name result_str :
  length (format_result function_name result_str)
    <= length function_name + 2063 /\
  exists rest,
    format_result function_name result_str
      = py "**" ++ function_name ++ py "**:" ++ nl ++ rest /\
    length rest <= 2057.
Proof.
  unfold format_result.
  destruct (Nat.ltb_spec 2000 (length result_str)) as [Hlong|Hshort].
  - split.
    + rewrite !length_app, length_take.
      change (length (py "**")) with 2. change (length (py "**:")) with 3.
      change (length nl) with 1. change (length (py "...")) with 3.
      change (length (py "*[Result truncated - showing first 2000 characters]*"))
        with 52.
      lia.
    + eexists. split; [reflexivity|].
      rewrite !length_app, length_take.
      change (length nl) with 1. change (length (py "...")) with 3.
      change (length (py "*[Result truncated - showing first 2000 characters]*"))
        with 52.
      lia.
  - split.
    + rewrite !length_app.
      change (length (py "**")) with 2. change (length (py "**:")) with 3.
      change (length nl) with 1. lia.
    + eexists. split; [reflexivity|]. lia.
Qed.

(** *** The reply *)

Lemma no_resolving_call_no_block client calls :
  List.filter (resolves client) calls = [] ->
  flat_map (tool_block client) calls = [].
Proof.
  intros Hn. apply length_zero_iff_nil.
  by rewrite flat_map_tool_block_length, Hn.
Qed.

(** X3: when no tool call of the response resolves, and in particular
    when the response has no tool call, nothing is invoked and the
    stored reply is the message first built from the response: its
    content is the model's content, with no Tool Results section. *)
Theorem reply_without_resolving_tool_call
    client now user_input enable show w response :
  Forall well_formed (messages w) ->
  chat client (turn_request client now enable show (messages w))
    = Returned response ->
  List.filter (resolves client) (default [] (tool_calls (message response)))
    = [] ->
  process_ai_response client now user_input enable show w =
    (Returned tt,
     {| messages := messages w ++ [new_assistant_message response show];
        trace := trace w ++
          ClientChat (turn_request client now enable show (messages w))
          :: shown (new_assistant_message response show) show |}) /\
  new_assistant_message response show !! "content"
    = Some (or_empty (content (message response))).
Proof.
  intros Hwf Hc Hnone.
  pose proof (api_messages_well_formed now _ Hwf) as Ha.
  split; [|apply new_assistant_message_content].
  rewrite (process_ai_response_reply _ _ _ _ _ _ _ _ Ha Hc).
  rewrite flat_map_tool_events, Hnone.
  unfold reply, tool_blocks. by rewrite (no_resolving_call_no_block _ _ Hnone).
Qed.

(** Scenario B: web search off, a plain answer. *)
Lemma scenario_B :
  process_ai_response (scripted plain_response)
    monday (py "What's the weather today?") false false
    (asked "What's the weather today?") =
    (Returned tt,
     {| messages :=
          [user_message (py "What's the weather today?");
           {[ "role" := py "assistant";
              "content" := py "I can't check live weather." ]}];
        trace :=
          [ClientChat {| req_model := py "qwen3:4b";
                         req_messages :=
                           [system_message monday;
                            user_message (py "What's the weather today?")];
                         req_tools := [];
                         req_think := false |};
           StWrite (py "I can't check live weather.")] |}) /\
  new_assistant_message plain_response false !! "content"
    = Some (py "I can't check live weather.").
Proof.
  apply (reply_without_resolving_tool_call (scripted plain_response)
           monday (py "What's the weather today?") false false
           (asked "What's the weather today?") plain_response).
  - repeat constructor; eexists; reflexivity.
  - reflexivity.
  - reflexivity.
Defined.

Lemma new_assistant_message_thinking response show :
  new_assistant_message response show !! "thinking" =
    match thinking (message response) with
    | Some t => if truthy t && show then Some t else None
    | None => None
    end.
Proof.
  unfold new_assistant_message.
  destruct (thinking _) as [t|]; [destruct (truthy t && show)|];
    by simplify_map_eq.
Qed.

Lemma new_assistant_message_other response show k :
  k <> "role" -> k <> "content" -> k <> "thinking" ->
  new_assistant_message response show !! k = None.
Proof.
  intros Hr Hc Ht. unfold new_assistant_message.
  destruct (thinking _) as [t|]; [destruct (truthy t && show)|];
    by simplify_map_eq.
Qed.

Lemma reply_other_key client response show k :
  k <> "content" ->
  reply client response show !! k = new_assistant_message response show !! k.
Proof.
  intros Hk. unfold reply. destruct (truthy _); [|done].
  by rewrite lookup_insert_ne.
Qed.

(** X4: the stored reply carries the model's thinking exactly when the
    thinking came back non-empty and the show-thinking toggle is on,
    with or without tool results merged in; and it has no key besides
    role, content and thinking. *)
Theorem thinking_is_stored_only_when_shown
    client now user_input enable show w response :
  Forall well_formed (messages w) ->
  chat client (turn_request client now enable show (messages w))
    = Returned response ->
  exists assistant_message events,
    process_ai_response client now user_input enable show w =
      (Returned tt,
       {| messages := messages w ++ [assistant_message];
          trace := trace w ++ events |}) /\
    assistant_message !! "thinking" =
      match thinking (message response) with
      | Some t => if truthy t && show then Some t else None
      | None => None
      end /\
    forall k, k <> "role" -> k <> "content" -> k <> "thinking" ->
      assistant_message !! k = None.
Proof.
  intros Hwf Hc.
  pose proof (api_messages_well_formed now _ Hwf) as Ha.
  eexists _, _. split; [|split].
  - exact (process_ai_response_reply _ _ _ _ _ _ _ _ Ha Hc).
  - rewrite reply_other_key by done. apply new_assistant_message_thinking.
  - intros k Hr Hk Ht. rewrite reply_other_key by done.
    by apply new_assistant_message_other.
Qed.

Lemma thinking_is_stored_example :
  exists assistant_message events,
    process_ai_response (scripted thinking_response) monday (py "6 x 7?")
      true true (asked "6 x 7?") =
      (Returned tt,
       {| messages := [user_message (py "6 x 7?"); assistant_message];
          trace := events |}) /\
    assistant_message !! "thinking" = Some (py "Six times seven.") /\
    forall k, k <> "role" -> k <> "content" -> k <> "thinking" ->
      assistant_message !! k = None.
Proof.
  apply (thinking_is_stored_only_when_shown (scripted thinking_response)
           monday (py "6 x 7?") true true (asked "6 x 7?") thinking_response).
  - repeat constructor; eexists; reflexivity.
  - reflexivity.
Defined.

Example thinking_is_dropped_when_hidden :
  messages (snd (process_ai_response (scripted thinking_response) monday
                   (py "6 x 7?") true false (asked "6 x 7?"))) =
    [user_message (py "6 x 7?");
     {[ "role" := py "assistant"; "content" := py "It is 42." ]}].
Proof. reflexivity. Qed.

(** *** What a turn does to the trace *)

Lemma filter_page_invocations calls :
  List.filter on_page (invocation <$> calls) = [].
Proof. induction calls as [|tc calls IH]; simpl; done. Qed.

Lemma filter_page_shown msg show :
  List.filter on_page (shown msg show) = shown msg show.
Proof.
  unfold shown.
  destruct (msg !! "thinking") as [t|]; [destruct (truthy t && show)|]; done.
Qed.

Lemma displayed_user_message user_input show :
  displayed show (user_message user_input) = [StWrite user_input].
Proof.
  unfold displayed, user_message.
  rewrite decide_True by (by simplify_map_eq). by simplify_map_eq.
Qed.

Lemma displayed_reply client response show show' :
  displayed show' (reply client response show)
    = shown (reply client response show) show'.
Proof.
  unfold displayed. rewrite reply_role.
  rewrite decide_False by (intros [=]).
  by rewrite decide_True.
Qed.

(** X6: once a turn has completed, the next display of the chat history
    shows the earlier messages and then exactly what the turn itself
    put on the page for the user's text and the reply (thinking
    included, under the same toggle); displaying stores nothing. *)
Theorem redisplay_shows_what_the_turn_showed
    client now enable show user_input w response :
  truthy user_input = true ->
  Forall well_formed (messages w) ->
  chat client (turn_request client now enable show
                 (messages w ++ [user_message user_input])) = Returned response ->
  exists assistant_message events,
    chat_turn client now enable show (Some user_input) w =
      (Returned tt,
       {| messages := messages w ++ [user_message user_input; assistant_message];
          trace := trace w ++ events |}) /\
    forall shown_before,
      display_chat_history show
        {| messages := messages w ++ [user_message user_input; assistant_message];
           trace := shown_before |} =
      (Returned tt,
       {| messages := messages w ++ [user_message user_input; assistant_message];
          trace := shown_before
            ++ flat_map (displayed show) (messages w)
            ++ List.filter on_page events |}).
Proof.
  intros Hu Hwf Hc.
  eexists _, _. split.
  - exact (chat_turn_reply _ _ _ _ _ _ _ Hu Hwf Hc).
  - intros shown_before.
    rewrite display_chat_history_run; simpl.
    + unfold extend. simpl. rewrite app_nil_r. do 2 f_equal.
      rewrite flat_map_app. simpl.
      rewrite displayed_user_message, displayed_reply, app_nil_r.
      do 2 f_equal.
      rewrite !List.filter_app, flat_map_tool_events.
      rewrite filter_page_invocations, filter_page_shown. simpl.
      by rewrite app_nil_r.
    + apply Forall_app. split; [done|].
      repeat constructor; try apply user_message_well_formed;
        try apply reply_well_formed; eexists;
        first [apply reply_role | apply reply_content].
Qed.

Lemma redisplay_example :
  exists assistant_message events,
    chat_turn (scripted thinking_response) monday true true
      (Some (py "6 x 7?")) initial =
      (Returned tt,
       {| messages := [user_message (py "6 x 7?"); assistant_message];
          trace := events |}) /\
    forall shown_before,
      display_chat_history true
        {| messages := [user_message (py "6 x 7?"); assistant_message];
           trace := shown_before |} =
      (Returned tt,
       {| messages := [user_message (py "6 x 7?"); assistant_message];
          trace := shown_before ++ List.filter on_page events |}).
Proof.
  apply (redisplay_shows_what_the_turn_showed (scripted thinking_response)
           monday true true (py "6 x 7?") initial thinking_response).
  - reflexivity.
  - constructor.
  - reflexivity.
Defined.

Example redisplay_with_thinking :
  trace (snd (display_chat_history true
                (snd (chat_turn (scripted thinking_response) monday true true
                        (Some (py "6 x 7?")) initial)))) =
    [StWrite (py "6 x 7?");
     ClientChat (turn_request (scripted thinking_response) monday true true
                   [user_message (py "6 x 7?")]);
     StThinking (py "Six times seven.");
     StWrite (py "It is 42.");
     StRerun;
     StWrite (py "6 x 7?");
     StThinking (py "Six times seven.");
     StWrite (py "It is 42.")].
Proof. reflexivity. Qed.

(** *** Displaying the history *)

Lemma display_message_effect show msg w :
  exists o evs,
    display_message show msg tt w = (o, extend w [] evs) /\
    List.filter on_page evs = evs.
Proof.
  unfold display_message, show_thinking_of, bind, lift, getitem, emit, ret.
  destruct (msg !! "role") as [r|].
  - destruct (decide (r = py "user")).
    + destruct (msg !! "content") as [c|].
      * exists (Returned tt), [StWrite c]. by unfold extend; rewrite app_nil_r.
      * eexists _, []. by rewrite extend_nil.
    + destruct (decide (r = py "assistant")).
      * destruct (msg !! "thinking") as [t|];
          [destruct (truthy t && show)|];
          destruct (msg !! "content") as [c|]; simpl;
          first [ exists (Returned tt), [StThinking t; StWrite c];
                  unfold extend; simpl; by rewrite app_nil_r, <- app_assoc
                | eexists _, [StThinking t];
                  unfold extend; simpl; by rewrite app_nil_r
                | exists (Returned tt), [StWrite c];
                  unfold extend; simpl; by rewrite app_nil_r
                | eexists _, []; by rewrite extend_nil ].
      * eexists _, []. by rewrite extend_nil.
  - eexists _, []. by rewrite extend_nil.
Qed.

Lemma display_loop_effect show history w :
  exists o evs,
    for_each history (display_message show) tt w = (o, extend w [] evs) /\
    List.filter on_page evs = evs.
Proof.
  revert w. induction history as [|msg history IH]; intros w; simpl.
  - exists (Returned tt), []. by rewrite extend_nil.
  - unfold bind.
    destruct (display_message_effect show msg w) as (o & evs & -> & Hevs).
    destruct o as [[]|e].
    + destruct (IH (extend w [] evs)) as (o' & evs' & -> & Hevs').
      exists o', (evs ++ evs'). rewrite extend_extend.
      split; [done|]. by rewrite List.filter_app, Hevs, Hevs'.
    + by exists (Raised e), evs.
Qed.

(** X7: displaying the chat history never changes the stored messages
    and adds only page output to the trace: no chat call, no tool
    invocation, no rerun, whatever the stored messages look like and
    whether or not the display raises. *)
Theorem display_only_writes_to_the_page show w :
  exists o events,
    display_chat_history show w =
      (o, {| messages := messages w; trace := trace w ++ events |}) /\
    List.filter on_page events = events.
Proof.
  unfold display_chat_history, bind, session_messages.
  destruct (display_loop_effect show (messages w) w) as (o & evs & -> & Hevs).
  exists o, evs. split; [|done].
  unfold extend. by rewrite app_nil_r.
Qed.

(** X8: a stored message without a role stops the display with a
    [KeyError] for ['role']: the messages before it are shown, the ones
    after it are not. *)
Theorem display_stops_at_message_without_role show w good bad rest :
  messages w = good ++ bad :: rest ->
  Forall well_formed good ->
  bad !! "role" = None ->
  display_chat_history show w =
    (Raised (py "'role'"),
     {| messages := messages w;
        trace := trace w ++ flat_map (displayed show) good |}).
Proof.
  intros Hm Hgood Hbad.
  unfold display_chat_history, bind at 1, session_messages. rewrite Hm.
  assert (Hloop : forall w0,
    for_each (good ++ bad :: rest) (display_message show) tt w0
      = (Raised (py "'role'"),
         extend w0 [] (flat_map (displayed show) good))).
  { clear Hm. induction Hgood as [|msg good Hmsg _ IH]; intros w0; simpl.
    - unfold bind, display_message, bind, lift, getitem.
      rewrite Hbad. by rewrite extend_nil.
    - unfold bind at 1. rewrite (display_message_run _ _ _ Hmsg), IH.
      by rewrite extend_extend. }
  rewrite Hloop. unfold extend. by rewrite app_nil_r, Hm.
Qed.

Lemma display_stops_example :
  display_chat_history false
    {| messages := [user_message (py "hello");
                    {[ "content" := py "Hi there." ]};
                    user_message (py "anyone?")];
       trace := [] |} =
    (Raised (py "'role'"),
     {| messages := [user_message (py "hello");
                     {[ "content" := py "Hi there." ]};
                     user_message (py "anyone?")];
        trace := [StWrite (py "hello")] |}).
Proof.
  apply (display_stops_at_message_without_role false
           {| messages := [user_message (py "hello");
                           {[ "content" := py "Hi there." ]};
                           user_message (py "anyone?")];
              trace := [] |}
           [user_message (py "hello")]
           {[ "content" := py "Hi there." ]}
           [user_message (py "anyone?")]).
  - reflexivity.
  - repeat constructor; eexists; reflexivity.
  - reflexivity.
Defined.

(** *** Damaged histories *)

Lemma project_missing_key msg key :
  missing_key msg = Some key ->
  project msg = Raised (py "'" ++ py key ++ py "'").
Proof.
  unfold missing_key, project, getitem, obind.
  destruct (msg !! "role") as [r|]; [|by intros [= <-]].
  destruct (msg !! "content") as [c|]; [done|by intros [= <-]].
Qed.

Lemma project_all_missing_key good bad rest key :
  Forall well_formed good ->
  missing_key bad = Some key ->
  project_all (good ++ bad :: rest) = Raised (py "'" ++ py key ++ py "'").
Proof.
  intros Hgood Hbad.
  induction Hgood as [|msg good Hmsg _ IH]; simpl.
  - by rewrite (project_missing_key _ _ Hbad).
  - by rewrite (project_well_formed _ Hmsg), IH.
Qed.

(** X9: when a stored message lacks its role or its content,
    [process_ai_response] raises the [KeyError] of the first missing
    key before anything else happens: the client is not called, nothing
    is stored, and nothing, not even an error, is written to the page. *)
Theorem damaged_history_raises_before_the_chat
    client now user_input enable show w good bad rest key :
  messages w = good ++ bad :: rest ->
  Forall well_formed good ->
  missing_key bad = Some key ->
  process_ai_response client now user_input enable show w
    = (Raised (py "'" ++ py key ++ py "'"), w).
Proof.
  intros Hm Hgood Hbad.
  apply process_ai_response_key_error.
  unfold api_messages. rewrite Hm.
  by rewrite (project_all_missing_key _ _ _ _ Hgood Hbad).
Qed.

Lemma damaged_history_example :
  process_ai_response (scripted plain_response) monday (py "anyone?")
    true false damaged
    = (Raised (py "'content'"), damaged).
Proof.
  apply (damaged_history_raises_before_the_chat (scripted plain_response)
           monday (py "anyone?") true false damaged
           [user_message (py "hello")]
           {[ "role" := py "assistant" ]}
           [user_message (py "anyone?")] "content").
  - reflexivity.
  - repeat constructor; eexists; reflexivity.
  - reflexivity.
Defined.

(** *** Runs of the script *)

Lemma main_returns r w :
  Forall well_formed (messages w) -> fst (main r w) = Returned tt.
Proof.
  intros Hwf. unfold main. destruct (run_clear r); [done|].
  unfold bind at 1. rewrite (display_chat_history_run _ _ Hwf).
  set (w1 := extend w [] _).
  assert (Hwf1 : Forall well_formed (messages w1))
    by (simpl; by rewrite app_nil_r).
  destruct (run_input r) as [u|]; [|done].
  destruct (truthy u) eqn:Hu.
  - destruct (chat (run_client r)
                (turn_request (run_client r) (run_time r) (run_web_search r)
                   (run_thinking r) (messages w1 ++ [user_message u])))
      as [response|e] eqn:Hc.
    + by rewrite (chat_turn_reply _ _ _ _ _ _ _ Hu Hwf1 Hc).
    + by rewrite (chat_turn_gateway_error _ _ _ _ _ _ _ Hu Hwf1 Hc).
  - rewrite chat_turn_nothing; [done|]. simpl. by rewrite Hu.
Qed.

(** X10: started from the empty session, the script never raises:
    whatever runs came before (any clients, inputs, toggles, clears,
    failing chat calls or raising tools), the next run of [main]
    returns, because every stored message has its role and content. *)
Theorem script_never_raises runs r :
  fst (main r (run_all runs initial)) = Returned tt /\
  Forall (fun m : Message => is_Some (m !! "role") /\ is_Some (m !! "content"))
    (messages (run_all runs initial)).
Proof.
  assert (Hwf : Forall well_formed (messages (run_all runs initial))).
  { apply run_all_well_formed. constructor. }
  split; [by apply main_returns | exact Hwf].
Qed.

Lemma chat_turn_appends client now enable show chat_input w :
  exists added,
    messages (snd (chat_turn client now enable show chat_input w))
      = messages w ++ added /\
    length added <= 2 /\
    Forall (fun m : Message => m !! "role" = Some (py "user")
                               \/ m !! "role" = Some (py "assistant")) added.
Proof.
  destruct chat_input as [u|];
    [|exists []; simpl; rewrite app_nil_r;
      split; [done|split; [lia|constructor]]].
  destruct (truthy u) eqn:Hu;
    [|exists []; unfold chat_turn; rewrite Hu; simpl; rewrite app_nil_r;
      split; [done|split; [lia|constructor]]].
  unfold chat_turn. rewrite Hu.
  unfold bind at 1. unfold session_append at 1.
  unfold bind at 1. unfold emit at 1.
  unfold bind at 1. simpl.
  set (w2 := {| messages := messages w ++ [_]; trace := _ |}).
  assert (Huser : ({[ "role" := py "user"; "content" := u ]} : Message) !! "role"
                  = Some (py "user")) by (by simplify_map_eq).
  destruct (api_messages now (messages w2)) as [api|e] eqn:Ha.
  - destruct (chat client (chat_request api
                (get_available_tools client enable) show))
      as [response|e] eqn:Hc.
    + rewrite (process_ai_response_reply _ _ _ _ _ _ _ _ Ha Hc). simpl.
      exists [{[ "role" := py "user"; "content" := u ]};
              reply client response show].
      split; [by rewrite <- app_assoc|]. split; [simpl; lia|].
      constructor; [by left|].
      constructor; [right; apply reply_role | constructor].
    + rewrite (process_ai_response_gateway_error _ _ _ _ _ _ _ _ Ha Hc). simpl.
      exists [{[ "role" := py "user"; "content" := u ]}].
      split; [by rewrite app_nil_r|]. split; [simpl; lia|].
      constructor; [by left | constructor].
  - rewrite (process_ai_response_key_error _ _ _ _ _ _ _ Ha). simpl.
    exists [{[ "role" := py "user"; "content" := u ]}].
    split; [done|]. split; [simpl; lia|].
    constructor; [by left | constructor].
Qed.

(** X11: unless the clear button is pressed, a run of [main] only
    appends: the messages stored before are all still there, unchanged
    and in place, followed by at most two new ones, each a user or an
    assistant message.  This holds from any state, whatever the run
    does (returns, fails at the chat call, raises). *)
Theorem main_only_appends r w :
  run_clear r = false ->
  exists added,
    messages (snd (main r w)) = messages w ++ added /\
    length added <= 2 /\
    Forall (fun m : Message => m !! "role" = Some (py "user")
                               \/ m !! "role" = Some (py "assistant")) added.
Proof.
  intros Hclear. unfold main. rewrite Hclear.
  unfold bind at 1. unfold display_chat_history, bind at 1, session_messages.
  destruct (display_loop_effect (run_thinking r) (messages w) w)
    as (o & evs & -> & _).
  destruct o as [[]|e].
  - destruct (chat_turn_appends (run_client r) (run_time r) (run_web_search r)
                (run_thinking r) (run_input r) (extend w [] evs))
      as (added & Hadded & Hlen & Hroles).
    exists added. rewrite Hadded. simpl. by rewrite app_nil_r.
  - exists []. simpl. rewrite !app_nil_r.
    split; [done|split; [lia|constructor]].
Qed.

Lemma main_only_appends_example :
  exists added,
    messages (snd (main (submit (scripted mixed_response) false "Weather, please")
                     damaged))
      = messages damaged ++ added /\
    length added <= 2 /\
    Forall (fun m : Message => m !! "role" = Some (py "user")
                               \/ m !! "role" = Some (py "assistant")) added.
Proof.
  apply (main_only_appends
           (submit (scripted mixed_response) false "Weather, please") damaged).
  reflexivity.
Defined.

Lemma main_clear_messages r w :
  run_clear r = true -> messages (snd (main r w)) = [].
Proof. intros Hclear. unfold main. by rewrite Hclear. Qed.

Lemma run_all_messages_only runs w1 w2 :
  Forall well_formed (messages w1) ->
  messages w1 = messages w2 ->
  messages (run_all runs w1) = messages (run_all runs w2).
Proof.
  revert w1 w2. induction runs as [|r runs IH]; intros w1 w2 Hwf Heq; simpl.
  - done.
  - apply IH; [by apply main_well_formed|].
    rewrite !main_messages by (by rewrite <- ?Heq). by rewrite Heq.
Qed.

(** X12: pressing the clear button forgets everything: the messages
    stored after any runs, a clear and further runs are those the
    further runs alone store in a fresh session. *)
Theorem clear_starts_a_fresh_session before r after :
  run_clear r = true ->
  messages (run_all (before ++ r :: after) initial)
    = messages (run_all after initial).
Proof.
  intros Hclear. rewrite run_all_app. simpl.
  apply run_all_messages_only.
  - rewrite (main_clear_messages _ _ Hclear). constructor.
  - by rewrite (main_clear_messages _ _ Hclear).
Qed.

Lemma clear_example :
  messages (run_all (two_turns ++ clear_pressed
                       :: [submit (scripted thinking_response) true "6 x 7?"])
              initial)
    = messages (run_all [submit (scripted thinking_response) true "6 x 7?"]
                  initial).
Proof.
  apply (clear_starts_a_fresh_session two_turns clear_pressed
           [submit (scripted thinking_response) true "6 x 7?"]).
  reflexivity.
Defined.

(** X13: the user message of a turn whose chat call failed stays in
    the history and is sent again: the next turn's request carries both
    user messages in order, and when that turn completes the history
    ends with two user messages followed by the reply. *)
Theorem unanswered_message_is_sent_again
    client1 client2 now1 now2 enable1 enable2 show1 show2
    first second w e response :
  truthy first = true ->
  truthy second = true ->
  Forall well_formed (messages w) ->
  chat client1 (turn_request client1 now1 enable1 show1
                  (messages w ++ [user_message first])) = Raised e ->
  chat client2 (turn_request client2 now2 enable2 show2
                  (messages w ++ [user_message first; user_message second]))
    = Returned response ->
  exists assistant_message w1 events,
    chat_turn client1 now1 enable1 show1 (Some first) w = (Returned tt, w1) /\
    chat_turn client2 now2 enable2 show2 (Some second) w1 =
      (Returned tt,
       {| messages := messages w ++ [user_message first; user_message second;
                                     assistant_message];
          trace := trace w1
            ++ StWrite second
            :: ClientChat (turn_request client2 now2 enable2 show2
                             (messages w ++ [user_message first;
                                             user_message second]))
            :: events |}) /\
    assistant_message !! "role" = Some (py "assistant").
Proof.
  intros Hu1 Hu2 Hwf Hc1 Hc2.
  eexists _, _, _. split; [|split].
  - exact (chat_turn_gateway_error _ _ _ _ _ _ _ Hu1 Hwf Hc1).
  - rewrite (chat_turn_reply client2 now2 enable2 show2 second _ response Hu2).
    + unfold extend. simpl. rewrite <- !app_assoc. simpl. reflexivity.
    + simpl. by apply well_formed_submitted.
    + simpl. by rewrite <- app_assoc.
  - apply reply_role.
Qed.

Lemma unanswered_message_example :
  exists assistant_message w1 events,
    chat_turn offline monday true false (Some (py "hello")) initial
      = (Returned tt, w1) /\
    chat_turn (scripted plain_response) monday false false
      (Some (py "What's the weather today?")) w1 =
      (Returned tt,
       {| messages := [user_message (py "hello");
                       user_message (py "What's the weather today?");
                       assistant_message];
          trace := trace w1
            ++ StWrite (py "What's the weather today?")
            :: ClientChat (turn_request (scripted plain_response) monday
                             false false
                             [user_message (py "hello");
                              user_message (py "What's the weather today?")])
            :: events |}) /\
    assistant_message !! "role" = Some (py "assistant").
Proof.
  apply (unanswered_message_is_sent_again offline (scripted plain_response)
           monday monday true false false false
           (py "hello") (py "What's the weather today?") initial
           (py "connection refused") plain_response).
  - reflexivity.
  - reflexivity.
  - constructor.
  - reflexivity.
  - reflexivity.
Defined.

(** X14: a run in which nothing is submitted (no input, or the empty
    string) and the clear button is not pressed stores nothing and
    calls neither the client nor a tool: it only redraws the page. *)
Theorem idle_run_only_redraws r w :
  run_clear r = false ->
  truthy_opt (run_input r) = false ->
  exists o events,
    main r w = (o, {| messages := messages w; trace := trace w ++ events |}) /\
    List.filter on_page events = events.
Proof.
  intros Hclear Hidle. unfold main. rewrite Hclear.
  unfold bind at 1. unfold display_chat_history, bind at 1, session_messages.
  destruct (display_loop_effect (run_thinking r) (messages w) w)
    as (o & evs & -> & Hevs).
  exists o, evs. split; [|done].
  destruct o as [[]|e].
  - rewrite (chat_turn_nothing _ _ _ _ _ _ Hidle).
    unfold extend. by rewrite app_nil_r.
  - unfold extend. by rewrite app_nil_r.
Qed.

Lemma idle_run_example :
  exists o events,
    main {| run_client := offline; run_time := monday;
            run_web_search := true; run_thinking := true;
            run_clear := false; run_input := Some [] |} remembered
      = (o, {| messages := messages remembered;
               trace := trace remembered ++ events |}) /\
    List.filter on_page events = events.
Proof.
  apply (idle_run_only_redraws
           {| run_client := offline; run_time := monday;
              run_web_search := true; run_thinking := true;
              run_clear := false; run_input := Some [] |} remembered).
  - reflexivity.
  - reflexivity.
Defined.

Lemma main_exchanges r w groups :
  Forall well_formed (messages w) ->
  messages w = concat groups ->
  Forall exchange groups ->
  exists groups',
    messages (snd (main r w)) = concat groups' /\ Forall exchange groups'.
Proof.
  intros Hwf Hm Hgroups. rewrite (main_messages _ _ Hwf).
  destruct (run_clear r); [by exists []|].
  destruct (run_input r) as [u|]; [|by exists groups].
  destruct (truthy u); [|by exists groups].
  destruct (chat _ _) as [response|e].
  - exists (groups ++ [[user_message u;
                        reply (run_client r) response (run_thinking r)]]).
    split.
    + rewrite concat_app, Hm. simpl. by rewrite ?app_nil_r.
    + apply Forall_app. split; [done|].
      constructor; [|constructor].
      exists u. right. eexists. split; [done|]. apply reply_role.
  - exists (groups ++ [[user_message u]]). split.
    + rewrite concat_app, Hm. simpl. by rewrite ?app_nil_r.
    + apply Forall_app. split; [done|].
      constructor; [|constructor]. exists u. by left.
Qed.

Lemma run_all_exchanges runs w groups :
  Forall well_formed (messages w) ->
  messages w = concat groups ->
  Forall exchange groups ->
  exists groups',
    messages (run_all runs w) = concat groups' /\ Forall exchange groups'.
Proof.
  revert w groups.
  induction runs as [|r runs IH]; intros w groups Hwf Hm Hgroups; simpl.
  - by exists groups.
  - destruct (main_exchanges r w groups Hwf Hm Hgroups) as (groups' & Hm' & Hg').
    exact (IH _ groups' (main_well_formed r w Hwf) Hm' Hg').
Qed.

(** X15: whatever runs the session has gone through, the stored history
    is a sequence of exchanges, each a user message alone (its chat call
    failed) or a user message followed by exactly one assistant message:
    a reply is never stored without the user message it answers, and
    never twice. *)
Theorem history_is_a_sequence_of_exchanges runs :
  exists groups,
    messages (run_all runs initial) = concat groups /\
    Forall exchange groups.
Proof.
  apply (run_all_exchanges runs initial []); [constructor|done|constructor].
Qed.

Lemma projection_user_message user_input :
  projection (user_message user_input) = user_message user_input.
Proof. unfold projection, user_message. by simplify_map_eq. Qed.

Lemma projection_role msg :
  projection msg !! "role" = Some (default [] (msg !! "role")).
Proof. unfold projection. by simplify_map_eq. Qed.

(** X16: in a session started empty, every request a turn sends has
    the system message of that turn as its first entry and no other
    entry with the role [system]; the stored messages follow, and the
    user's new message, as submitted, is the last entry. *)
Theorem request_has_one_system_message
    runs client now enable show user_input :
  truthy user_input = true ->
  exists rest events,
    trace (snd (chat_turn client now enable show (Some user_input)
                  (run_all runs initial))) =
      trace (run_all runs initial)
        ++ StWrite user_input
        :: ClientChat {| req_model := py "qwen3:4b";
                         req_messages := system_message now :: rest;
                         req_tools := get_available_tools client enable;
                         req_think := show |}
        :: events /\
    Forall (fun m : Message => m !! "role" <> Some (py "system")) rest /\
    length rest = S (length (messages (run_all runs initial))) /\
    last rest = Some (user_message user_input).
Proof.
  intros Hu. set (w := run_all runs initial).
  assert (Hst : Forall stored (messages w)) by (apply run_all_stored; constructor).
  assert (Hwf : Forall well_formed (messages w))
    by (eapply Forall_impl; [exact Hst|apply stored_well_formed]).
  exists (projection <$> (messages w ++ [user_message user_input])).
  assert (Htrace : exists events,
    trace (snd (chat_turn client now enable show (Some user_input) w)) =
      trace w ++ StWrite user_input
        :: ClientChat (turn_request client now enable show
                         (messages w ++ [user_message user_input])) :: events).
  { destruct (chat client (turn_request client now enable show
                (messages w ++ [user_message user_input])))
      as [response|e] eqn:Hc.
    - rewrite (chat_turn_reply _ _ _ _ _ _ _ Hu Hwf Hc). by eexists.
    - rewrite (chat_turn_gateway_error _ _ _ _ _ _ _ Hu Hwf Hc). by eexists. }
  destruct Htrace as [events Htrace]. exists events.
  split; [exact Htrace|]. split; [|split].
  - apply Forall_fmap, Forall_app. split.
    + eapply Forall_impl; [exact Hst|]. intros m [[Hr|Hr] _]; simpl;
        rewrite projection_role, Hr; intros [=].
    + constructor; [|constructor]. simpl.
      rewrite projection_user_message. unfold user_message.
      rewrite lookup_insert_eq. intros [=].
  - rewrite length_fmap, length_app. simpl. lia.
  - rewrite fmap_app. simpl. by rewrite last_snoc, projection_user_message.
Qed.

Lemma request_example :
  exists rest events,
    trace (snd (chat_turn (scripted plain_response) monday false false
                  (Some (py "And tomorrow?")) (run_all two_turns initial))) =
      trace (run_all two_turns initial)
        ++ StWrite (py "And tomorrow?")
        :: ClientChat {| req_model := py "qwen3:4b";
                         req_messages := system_message monday :: rest;
                         req_tools := [];
                         req_think := false |}
        :: events /\
    Forall (fun m : Message => m !! "role" <> Some (py "system")) rest /\
    length rest = S (length (messages (run_all two_turns initial))) /\
    last rest = Some (user_message (py "And tomorrow?")).
Proof.
  apply (request_has_one_system_message two_turns (scripted plain_response)
           monday false false (py "And tomorrow?")).
  reflexivity.
Defined.
